(** * course_work: backing up VK album photos to Yandex Disk

    A shallow embedding of [main.py] and the properties of its
    specification.  Python values are a small universe of JSON-like data,
    effects (console, network, clock, output file) are threaded through an
    explicit [world], and an uncaught Python exception is the [Err] branch
    of a result. *)

From Stdlib Require Import ZArith List String Ascii Bool Lia QArith Qround.
From Stdlib Require Import DecimalString DecimalZ.
Import ListNotations.
Open Scope string_scope.
Open Scope Z_scope.

Set Warnings "-register-all".

(** ** Python values *)

(** The values the program handles: what [input()] returns and what
    [response.json()] decodes.  JSON numbers are the integers (a number
    literal with a fraction or an exponent decodes to a float, which is
    outside this universe); a dict keeps its items in insertion order. *)
Inductive value : Type :=
| VNone
| VBool (b : bool)
| VInt (n : Z)
| VStr (s : string)
| VList (l : list value)
| VDict (kvs : list (string * value)).

(** The exceptions that can leave the program's functions. [SystemExit]
    carries the argument of [exit]. *)
Inductive exn : Type :=
| SystemExit (code : option Z)
| TypeError
| KeyError
| AttributeError
| JSONDecodeError
| EOFError
| OverflowError
| OSError
| RequestException.

Inductive result (A : Type) : Type :=
| Ok (a : A)
| Err (e : exn).
Arguments Ok {A} a.
Arguments Err {A} e.

(** Exit status of the interpreter for the outcome of the main module:
    [SystemExit] with no code (or code 0) and normal completion give 0, an
    integer code gives that code, any other uncaught exception gives 1. *)
Definition exit_status {A : Type} (r : result A) : Z :=
  match r with
  | Ok _ => 0
  | Err (SystemExit None) => 0
  | Err (SystemExit (Some c)) => c
  | Err _ => 1
  end.

(** [d[k]] for a dict held as its list of items. *)
Fixpoint dict_get (k : string) (kvs : list (string * value)) : option value :=
  match kvs with
  | [] => None
  | (k', v) :: rest => if String.eqb k k' then Some v else dict_get k rest
  end.

(** [v[k]] with a string key [k]: a dict is searched ([KeyError] when the
    key is absent), a str or a list wants integer indices, nothing else is
    subscriptable. *)
Definition getitem (v : value) (k : string) : result value :=
  match v with
  | VDict kvs =>
      match dict_get k kvs with
      | Some x => Ok x
      | None => Err KeyError
      end
  | _ => Err TypeError
  end.

(** [v.get(k)]: only a dict has the method; a missing key gives [None]. *)
Definition dict_get_method (v : value) (k : string) : result value :=
  match v with
  | VDict kvs =>
      match dict_get k kvs with
      | Some x => Ok x
      | None => Ok VNone
      end
  | _ => Err AttributeError
  end.

(** [a == b].  [bool] is a subclass of [int], so [True == 1]; lists compare
    item by item, dicts by key. *)
Fixpoint py_eq (a b : value) {struct a} : bool :=
  match a, b with
  | VNone, VNone => true
  | VBool x, VBool y => Bool.eqb x y
  | VBool x, VInt n => (if x then 1 else 0) =? n
  | VInt n, VBool y => n =? (if y then 1 else 0)
  | VInt m, VInt n => m =? n
  | VStr s, VStr t => String.eqb s t
  | VList l, VList l' =>
      (fix items (l l' : list value) : bool :=
         match l, l' with
         | [], [] => true
         | x :: xs, y :: ys => py_eq x y && items xs ys
         | _, _ => false
         end) l l'
  | VDict kvs, VDict kvs' =>
      (List.length kvs =? List.length kvs')%nat &&
      (fix items (kvs : list (string * value)) : bool :=
         match kvs with
         | [] => true
         | p :: rest =>
             match dict_get (fst p) kvs' with
             | Some v' => py_eq (snd p) v' && items rest
             | None => false
             end
         end) kvs
  | _, _ => false
  end.

(** Whether [hash(v)] succeeds: lists and dicts are unhashable. *)
Definition hashable (v : value) : bool :=
  match v with
  | VList _ | VDict _ => false
  | _ => true
  end.

(** [str(n)] for an int. *)
Definition str_of_int (n : Z) : string := NilZero.string_of_int (Z.to_int n).

(** [l.count(x)]. *)
Definition count (x : value) (l : list value) : Z :=
  Z.of_nat (List.length (filter (fun y => py_eq y x) l)).

(** Iterating over [v] in a [for] loop: the items of a list, the keys of a
    dict, the characters of a str; anything else is not iterable. *)
Fixpoint chars (s : string) : list value :=
  match s with
  | EmptyString => []
  | String c rest => VStr (String c EmptyString) :: chars rest
  end.

Definition iterate (v : value) : result (list value) :=
  match v with
  | VList l => Ok l
  | VDict kvs => Ok (map (fun p => VStr (fst p)) kvs)
  | VStr s => Ok (chars s)
  | _ => Err TypeError
  end.

(** ** The world around a run *)

Inductive http_method : Type := GET | PUT | POST.

(** A call of [requests.get], [requests.put] or [requests.post]. *)
Record request : Type := mkRequest {
  rq_method : http_method;
  rq_url : string;
  rq_params : list (string * value);
  rq_headers : list (string * value)
}.

(** A [requests.models.Response]: its status code, and what [.json()]
    decodes from its body ([None] when the body is not JSON). *)
Record response : Type := mkResponse {
  status_code : Z;
  body : option value
}.

(** One stored file of the manifest (lines 137-140). *)
Record item : Type := mkItem {
  i_name : string;
  i_href : value;
  i_height : value;
  i_width : value
}.

(** [output_json] of [upload_files] (lines 123-128), which is also the
    document dumped to [output.json]. *)
Record manifest : Type := mkManifest {
  m_href : value;
  m_name : string;
  m_date : Q;
  m_count : Z;
  m_items : list item
}.

(** Everything outside the program that a run reads or changes.
    [network n] is what the [n]-th HTTP call of the run meets: a response,
    or the exception [requests] raises.  [clock n] is the [n]-th reading
    of the wall clock.  [settings] is what lines 147-149 evaluate to: the
    token stored in [settings.ini], or the exception [configparser]
    raises.  [writable] tells whether [output.json] can be opened for
    writing. *)
Record world : Type := mkWorld {
  stdin : list string;
  stdout : list string;
  network : nat -> result response;
  sent : list request;
  clock : nat -> Q;
  ticks : nat;
  settings : result string;
  writable : bool;
  files : list (string * manifest)
}.

Definition set_stdin (l : list string) (w : world) : world :=
  mkWorld l (stdout w) (network w) (sent w) (clock w) (ticks w)
          (settings w) (writable w) (files w).
Definition set_stdout (l : list string) (w : world) : world :=
  mkWorld (stdin w) l (network w) (sent w) (clock w) (ticks w)
          (settings w) (writable w) (files w).
Definition set_sent (l : list request) (w : world) : world :=
  mkWorld (stdin w) (stdout w) (network w) l (clock w) (ticks w)
          (settings w) (writable w) (files w).
Definition set_ticks (n : nat) (w : world) : world :=
  mkWorld (stdin w) (stdout w) (network w) (sent w) (clock w) n
          (settings w) (writable w) (files w).
Definition set_files (l : list (string * manifest)) (w : world) : world :=
  mkWorld (stdin w) (stdout w) (network w) (sent w) (clock w) (ticks w)
          (settings w) (writable w) l.

(** ** Computations: state passing with exceptions *)

Definition M (A : Type) : Type := world -> result A * world.

Definition ret {A : Type} (a : A) : M A := fun w => (Ok a, w).

Definition raise {A : Type} (e : exn) : M A := fun w => (Err e, w).

Definition bind {A B : Type} (m : M A) (f : A -> M B) : M B :=
  fun w =>
    match m w with
    | (Ok a, w') => f a w'
    | (Err e, w') => (Err e, w')
    end.

(** A pure step that may raise. *)
Definition lift {A : Type} (r : result A) : M A := fun w => (r, w).

Declare Scope py_scope.
Delimit Scope py_scope with py.
Notation "x <- m ;; k" := (bind m (fun x => k))
  (at level 61, m at next level, right associativity) : py_scope.
Notation "m ;;; k" := (bind m (fun _ => k))
  (at level 61, right associativity) : py_scope.
Open Scope py_scope.

(** What [print(s)] writes: [s] and a newline. *)
Definition printed (s : string) : string := s ++ String "010" EmptyString.

(** [print(s)]. *)
Definition print (s : string) : M unit :=
  fun w => (Ok tt, set_stdout (stdout w ++ [printed s]) w).

(** [input(prompt)]: the prompt goes to the console, a line is read;
    [EOFError] at the end of the input. *)
Definition input (prompt : string) : M string :=
  fun w =>
    let w1 := set_stdout (stdout w ++ [prompt]) w in
    match stdin w1 with
    | [] => (Err EOFError, w1)
    | line :: rest => (Ok line, set_stdin rest w1)
    end.

(** [exit()]: the builtin raises [SystemExit] with no code. *)
Definition exit {A : Type} : M A := raise (SystemExit None).

(** One HTTP call: the request is issued, the network answers. *)
Definition http (rq : request) : M response :=
  fun w => (network w (List.length (sent w)), set_sent (sent w ++ [rq]) w).

(** [time.time()]. *)
Definition time_time : M Q :=
  fun w => (Ok (clock w (ticks w)), set_ticks (S (ticks w)) w).

(** [with open(path, 'w') as file: json.dump(doc, file, ...)]. *)
Definition dump_to_file (path : string) (doc : manifest) : M unit :=
  fun w =>
    if writable w then (Ok tt, set_files (files w ++ [(path, doc)]) w)
    else (Err OSError, w).

(** [response.json()]. *)
Definition response_json (r : response) : result value :=
  match body r with
  | Some v => Ok v
  | None => Err JSONDecodeError
  end.

(** ** Calendar time *)

(** [time.struct_time], reduced to the fields [%d_%m_%Y] reads. *)
Record struct_time : Type := mkTm {
  tm_year : Z;
  tm_mon : Z;
  tm_mday : Z
}.

(** The proleptic Gregorian date of the day [days] days after 1970-01-01,
    computed by eras of 400 years that start on 1 March. *)
Definition civil_from_days (days : Z) : struct_time :=
  let z := days + 719468 in
  let era := z / 146097 in
  let doe := z mod 146097 in
  let yoe := (doe - doe / 1460 + doe / 36524 - doe / 146096) / 365 in
  let doy := doe - (365 * yoe + yoe / 4 - yoe / 100) in
  let mp := (5 * doy + 2) / 153 in
  let d := doy - (153 * mp + 2) / 5 + 1 in
  let m := if mp <? 10 then mp + 3 else mp - 9 in
  let y := yoe + era * 400 in
  mkTm (if m <=? 2 then y + 1 else y) m d.

(** What the interpreter's platform decides: the offset of local time from
    UTC, in seconds, in force at an instant; which instants fit its
    [time_t] and which of those its C [localtime] can convert; and the
    text of [repr] for a list or a dict. *)
Record platform : Type := mkPlatform {
  utc_offset : Z -> Z;
  time_t_fits : Z -> bool;
  tm_fits : Z -> bool;
  container_repr : value -> string
}.

(** A digit and the two-digit, zero-padded form of [%d] and [%m]. *)
Definition digit (n : Z) : ascii := ascii_of_nat (48 + Z.to_nat n).

Definition pad2 (n : Z) : string :=
  String (digit (n / 10)) (String (digit (n mod 10)) EmptyString).

(** [time.strftime('%d_%m_%Y', t)]; the year is printed in decimal, the
    way glibc does for [%Y]. *)
Definition strftime_d_m_Y (t : struct_time) : string :=
  pad2 (tm_mday t) ++ "_" ++ pad2 (tm_mon t) ++ "_" ++ str_of_int (tm_year t).

Section Program.

Variable P : platform.

(** [str(v)], which is what an f-string inserts. *)
Definition py_str (v : value) : string :=
  match v with
  | VNone => "None"
  | VBool true => "True"
  | VBool false => "False"
  | VInt n => str_of_int n
  | VStr s => s
  | VList _ | VDict _ => container_repr P v
  end.

(** [time.localtime] at an integer instant: [OverflowError] when it does
    not fit [time_t], [OSError] when the C library cannot convert it. *)
Definition localtime_at (secs : Z) : result struct_time :=
  if negb (time_t_fits P secs) then Err OverflowError
  else if negb (tm_fits P secs) then Err OSError
  else Ok (civil_from_days ((secs + utc_offset P secs) / 86400)).

(** [time.localtime(v)]: an int (or a bool) is the instant, [None] means
    now, and nothing else is a number. *)
Definition localtime (v : value) : M struct_time :=
  match v with
  | VInt n => lift (localtime_at n)
  | VBool b => lift (localtime_at (if b then 1 else 0))
  | VNone => now <- time_time ;; lift (localtime_at (Qfloor now))
  | _ => raise TypeError
  end.

(** ** [response_processing] (lines 14-32) *)

Definition response_processing (response : response) : M unit :=
  let code := status_code response in
  if (400 <=? code) && (code <? 500) then
    print ("Client error " ++ str_of_int code) ;;;
    exit
  else if (500 <=? code) && (code <? 600) then
    print ("Server error " ++ str_of_int code) ;;;
    exit
  else
    response_json <- lift (response_json response) ;;
    error <- lift (dict_get_method response_json "error") ;;
    match error with
    | VNone => ret tt
    | _ =>
        error <- lift (getitem response_json "error") ;;
        error_msg <- lift (getitem error "error_msg") ;;
        print ("Error. " ++ py_str error_msg) ;;;
        exit
    end.

(** A loop that appends one result per element ([for x in l: out.append(f(x))]);
    an exception leaves the loop and the function. *)
Fixpoint for_each {A B : Type} (f : A -> M B) (l : list A) : M (list B) :=
  match l with
  | [] => ret []
  | x :: rest =>
      y <- f x ;;
      ys <- for_each f rest ;;
      ret (y :: ys)
  end.

(** [{**a, **b}]: the items of [a], those whose key is in [b] with the value
    [b] gives, then the items of [b] under new keys. *)
Definition dict_set (k : string) (v : value) (d : list (string * value))
  : list (string * value) :=
  if existsb (fun p => String.eqb (fst p) k) d
  then map (fun p => if String.eqb (fst p) k then (k, v) else p) d
  else d ++ [(k, v)].

Definition dict_merge (a b : list (string * value)) : list (string * value) :=
  fold_left (fun d p => dict_set (fst p) (snd p) d) b a.

(** Binding the positional arguments of a call to the parameters of a
    [def] ([None]: no default; [Some d]: default [d]).  Too few or too many
    arguments raise [TypeError]. *)
Fixpoint bind_args {A : Type} (params : list (option A)) (args : list A)
  : result (list A) :=
  match params, args with
  | [], [] => Ok []
  | [], _ :: _ => Err TypeError
  | None :: _, [] => Err TypeError
  | Some d :: ps, [] =>
      match bind_args ps [] with
      | Ok l => Ok (d :: l)
      | Err e => Err e
      end
  | _ :: ps, a :: rest =>
      match bind_args ps rest with
      | Ok l => Ok (a :: l)
      | Err e => Err e
      end
  end.

(** ** [VKClient] (lines 35-74) *)

(** One photo as [get_photos_info] returns it: the dict literal of lines
    68-72, with its five keys. *)
Record info : Type := mkInfo {
  likes : value;
  url : value;
  date : value;
  height : value;
  width : value
}.

Record VKClient : Type := mkVKClient {
  vk_params : list (string * value)
}.

Definition VK_BASE_URL : string := "https://api.vk.com/method".

(** [__init__(self, vk_token, user_id, version='5.199')]. *)
Definition VKClient_init (vk_token user_id version : string) : VKClient :=
  mkVKClient [("access_token", VStr vk_token);
              ("owner_id", VStr user_id); ("extended", VStr "1");
              ("v", VStr version)].

(** The call [VKClient(args...)]. *)
Definition new_VKClient (args : list string) : result VKClient :=
  match bind_args [None; None; Some "5.199"] args with
  | Ok [vk_token; user_id; version] => Ok (VKClient_init vk_token user_id version)
  | Ok _ => Err TypeError
  | Err e => Err e
  end.

(** The dict appended for one item (lines 68-72), keys in order. *)
Definition photo_info (item : value) : result info :=
  match getitem item "likes" with
  | Err e => Err e
  | Ok item_likes =>
  match getitem item_likes "count" with
  | Err e => Err e
  | Ok likes =>
  match getitem item "orig_photo" with
  | Err e => Err e
  | Ok orig_photo =>
  match getitem orig_photo "url" with
  | Err e => Err e
  | Ok url =>
  match getitem item "date" with
  | Err e => Err e
  | Ok date =>
  match getitem orig_photo "height" with
  | Err e => Err e
  | Ok height =>
  match getitem orig_photo "width" with
  | Err e => Err e
  | Ok width => Ok (mkInfo likes url date height width)
  end end end end end end end.

(** [get_photos_info(self, album_id)]. *)
Definition get_photos_info (self : VKClient) (album_id : string) : M (list info) :=
  let url := VK_BASE_URL ++ "/photos.get" in
  let params := [("album_id", VStr album_id)] in
  response <- http (mkRequest GET url (dict_merge (vk_params self) params) []) ;;
  response_processing response ;;;
  response_json <- lift (response_json response) ;;
  resp <- lift (getitem response_json "response") ;;
  items <- lift (getitem resp "items") ;;
  items <- lift (iterate items) ;;
  for_each (fun item => lift (photo_info item)) items.

(** The call [self.get_photos_info(args...)]. *)
Definition call_get_photos_info (self : VKClient) (args : list string)
  : M (list info) :=
  match bind_args [None] args with
  | Ok [album_id] => get_photos_info self album_id
  | Ok _ => raise TypeError
  | Err e => raise e
  end.

(** ** [DiskClient] (lines 77-142) *)

Record DiskClient : Type := mkDiskClient {
  disk_headers : list (string * value)
}.

Definition DISK_BASE_URL : string :=
  "https://cloud-api.yandex.net/v1/disk/resources".

(** [__init__(self, ya_token)]. *)
Definition DiskClient_init (ya_token : string) : DiskClient :=
  mkDiskClient [("Authorization", VStr ya_token)].

(** The call [DiskClient(args...)]. *)
Definition new_DiskClient (args : list string) : result DiskClient :=
  match bind_args [None] args with
  | Ok [ya_token] => Ok (DiskClient_init ya_token)
  | Ok _ => Err TypeError
  | Err e => Err e
  end.

(** [__create_dir(self, dirname)]. *)
Definition create_dir (self : DiskClient) (dirname : string) : M value :=
  let params := [("path", VStr dirname)] in
  response <- http (mkRequest PUT DISK_BASE_URL params (disk_headers self)) ;;
  response_processing response ;;;
  lift (response_json response).

(** Building a set from the elements of [elems]: each one is hashed. The
    set is held as the list of what was added; only membership is asked of
    it. *)
Fixpoint set_of (elems : list value) : result (list value) :=
  match elems with
  | [] => Ok []
  | x :: rest =>
      if hashable x then
        match set_of rest with
        | Ok s => Ok (x :: s)
        | Err e => Err e
        end
      else Err TypeError
  end.

(** [x in s] for a set [s]: [x] is hashed, then compared. *)
Definition set_contains (s : list value) (x : value) : result bool :=
  if hashable x then Ok (existsb (fun y => py_eq y x) s) else Err TypeError.

(** Line 119: the set of the names that occur more than once (and [None]
    for every name that does not). *)
Definition duplicate_names (names : list value) : result (list value) :=
  set_of (map (fun name => if count name names >? 1 then name else VNone) names).

(** Lines 131-132: the file name of one photo. *)
Definition filename (duplicate_names : list value) (info : info) : M string :=
  let base_name := py_str (likes info) in
  is_dup <- lift (set_contains duplicate_names (likes info)) ;;
  if (is_dup : bool) then
    t <- localtime (date info) ;;
    ret (base_name ++ "-" ++ strftime_d_m_Y t)
  else ret base_name.

(** Lines 131-140: the body of the upload loop. *)
Definition upload_one (self : DiskClient) (dirname upload_url : string)
    (duplicate_names : list value) (info : info) : M item :=
  filename <- filename duplicate_names info ;;
  let params := [("path", VStr (dirname ++ "/" ++ filename));
                 ("url", url info)] in
  response <- http (mkRequest POST upload_url params (disk_headers self)) ;;
  response_processing response ;;;
  response_json <- lift (response_json response) ;;
  href <- lift (getitem response_json "href") ;;
  ret (mkItem filename href (height info) (width info)).

(** [upload_files(self, files_info, dirname)]. *)
Definition upload_files (self : DiskClient) (files_info : list info)
    (dirname : string) : M manifest :=
  let names := map likes files_info in
  duplicate_names <- lift (duplicate_names names) ;;
  create_dir_json <- create_dir self dirname ;;
  let upload_url := DISK_BASE_URL ++ "/upload" in
  href <- lift (getitem create_dir_json "href") ;;
  date <- time_time ;;
  let count := Z.of_nat (List.length files_info) in
  items <- for_each (upload_one self dirname upload_url duplicate_names) files_info ;;
  ret (mkManifest href dirname date count items).

(** The naming pass of [upload_files] on its own: lines 118-119, then
    lines 131-132 for each photo, without the uploads in between. *)
Definition assign_names (files_info : list info) : M (list string) :=
  let names := map likes files_info in
  duplicate_names <- lift (duplicate_names names) ;;
  for_each (filename duplicate_names) files_info.

(** ** The main module (lines 146-168) *)

(** Lines 147-156: up to the list of photos. *)
Definition main_fetch : M (list info) :=
  vk_token <- (fun w => (settings w, w)) ;;
  user_id <- input "Enter vk user id: " ;;
  album_id <- input "Enter album id ('profile' by default): " ;;
  let album_id := if String.eqb album_id "" then "profile" else album_id in
  vk_client <- lift (new_VKClient [vk_token; user_id; album_id]) ;;
  call_get_photos_info vk_client [].

(** Lines 157-163: from the list of photos to the manifest. *)
Definition main_upload (photos_info : list info) : M manifest :=
  print "" ;;;
  disk_token <- input "Enter disk access token: " ;;
  dirname <- input "Enter directory name (default: reserve_copy): " ;;
  yadisk_client <- lift (new_DiskClient [disk_token]) ;;
  upload_files yadisk_client photos_info dirname.

(** Lines 157-168: from the list of photos to [output.json]. *)
Definition main_backup (photos_info : list info) : M unit :=
  response_json <- main_upload photos_info ;;
  dump_to_file "output.json" response_json ;;;
  print "Done!".

Definition main : M unit :=
  photos_info <- main_fetch ;;
  main_backup photos_info.

End Program.


(** * Vocabulary of the properties *)

(** Whether the character [c] occurs in [s]. *)
Fixpoint occurs (c : ascii) (s : string) : bool :=
  match s with
  | EmptyString => false
  | String a rest => Ascii.eqb a c || occurs c rest
  end.

(** A date of the calendar: a month from 1 to 12 and a day from 1 to 31. *)
Definition valid_date (t : struct_time) : Prop :=
  1 <= tm_mon t <= 12 /\ 1 <= tm_mday t <= 31.

(** What a step leaves alone.  [untouched w w'] says that from [w] to [w']
    nothing was sent, nothing was written, and the network is the same. *)
Definition untouched (w w' : world) : Prop :=
  sent w' = sent w /\ network w' = network w /\ files w' = files w.

Definition silent {A : Type} (m : M A) : Prop :=
  forall w r w', m w = (r, w') -> untouched w w'.

(** Requests, as the code builds them. *)

(** The request of [__create_dir] (line 94). *)
Definition folder_request (self : DiskClient) (dirname : string) : request :=
  mkRequest PUT DISK_BASE_URL [("path", VStr dirname)] (disk_headers self).

(** The request of the upload loop (lines 133-134) for the photo [r] under
    the name [name]. *)
Definition import_request (self : DiskClient) (dirname : string)
    (r : info) (name : string) : request :=
  mkRequest POST (DISK_BASE_URL ++ "/upload")
            [("path", VStr (dirname ++ "/" ++ name)); ("url", url r)]
            (disk_headers self).

(** Pairing the photos with the items made from them, in order. *)
Fixpoint import_requests (self : DiskClient) (dirname : string)
    (l : list info) (items : list item) : list request :=
  match l, items with
  | r :: l', it :: items' =>
      import_request self dirname r (i_name it)
        :: import_requests self dirname l' items'
  | _, _ => []
  end.

(** The [href] of the body of the response to the [n]-th request. *)
Definition href_of_reply (w : world) (n : nat) : result value :=
  match network w n with
  | Ok resp =>
      match response_json resp with
      | Ok v => getitem v "href"
      | Err e => Err e
      end
  | Err e => Err e
  end.

(** A list of Python values all of which are ints. *)
Definition all_ints (names : list value) : Prop :=
  Forall (fun v => exists p, v = VInt p) names.

(** [accepted resp kvs]: the status of [resp] is outside 400-599 and its
    body is the JSON object [kvs], with no [error] or a null one. *)
Definition accepted (resp : response) (kvs : list (string * value)) : Prop :=
  ~ 400 <= status_code resp < 600 /\
  body resp = Some (VDict kvs) /\
  (dict_get "error" kvs = None \/ dict_get "error" kvs = Some VNone).

(** The [n]-th request is answered by an accepted response whose body has
    the given [href]. *)
Definition answers_href (w : world) (n : nat) (href : value) : Prop :=
  exists resp kvs,
    network w n = Ok resp /\ accepted resp kvs /\
    dict_get "href" kvs = Some href.

(** The import requests for the first photos of [l] under the names of
    [names], pairwise and in order. *)
Fixpoint named_imports (self : DiskClient) (dirname : string)
    (l : list info) (names : list string) : list request :=
  match l, names with
  | r :: l', name :: names' =>
      import_request self dirname r name
        :: named_imports self dirname l' names'
  | _, _ => []
  end.

(** The request of [get_photos_info] (lines 59-61) for a client built by
    [VKClient(vk_token, user_id, version)]. *)
Definition photos_get_request (vk_token user_id version album_id : string)
  : request :=
  mkRequest GET "https://api.vk.com/method/photos.get"
            [("access_token", VStr vk_token); ("owner_id", VStr user_id);
             ("extended", VStr "1"); ("v", VStr version);
             ("album_id", VStr album_id)] [].

(** [ends_at_network_failure m]: in every run of [m], a request on which
    [requests] raises is the last one, and the run ends in that
    exception. *)
Definition ends_at_network_failure {A : Type} (m : M A) : Prop :=
  forall w r w',
    m w = (r, w') ->
    network w' = network w /\
    (List.length (sent w) <= List.length (sent w'))%nat /\
    forall n e,
      (List.length (sent w) <= n < List.length (sent w'))%nat ->
      network w n = Err e ->
      r = Err e /\ List.length (sent w') = S n.



Section Vocabulary.

Variable P : platform.

(** [rejects resp line]: validation stops on [resp], having printed
    [line], by raising [SystemExit] with no code. *)
Definition rejects (resp : response) (line : string) : Prop :=
  forall w,
    response_processing P resp w =
    (Err (SystemExit None), set_stdout (stdout w ++ [line]) w).

(** [stops_at_rejection m]: in every run of [m], a response that validation
    rejects is the last thing the run receives.  The run then ends in
    [SystemExit] with no result, and the rejection's line is the last one
    printed.  (The responses a run receives are those to the requests it
    sends, numbered from [length (sent w)].) *)
Definition stops_at_rejection {A : Type} (m : M A) : Prop :=
  forall w r w',
    m w = (r, w') ->
    network w' = network w /\ files w' = files w /\
    (List.length (sent w) <= List.length (sent w'))%nat /\
    forall n resp line,
      (List.length (sent w) <= n < List.length (sent w'))%nat ->
      network w n = Ok resp ->
      rejects resp line ->
      r = Err (SystemExit None) /\
      List.length (sent w') = S n /\
      exists out, stdout w' = (out ++ [line])%list.

(** The three kinds of terminal error of the specification, each with the
    line the program prints for it: a status from 400 to 499, a status from
    500 to 599, and, for any other status, a JSON body whose top-level
    [error] is an object with an [error_msg]. *)
Inductive terminal_error : response -> string -> Prop :=
| client_error resp :
    400 <= status_code resp < 500 ->
    terminal_error resp
      (printed ("Client error " ++ str_of_int (status_code resp)))
| server_error resp :
    500 <= status_code resp < 600 ->
    terminal_error resp
      (printed ("Server error " ++ str_of_int (status_code resp)))
| api_error resp kvs err msg :
    ~ 400 <= status_code resp < 600 ->
    body resp = Some (VDict kvs) ->
    dict_get "error" kvs = Some (VDict err) ->
    dict_get "error_msg" err = Some msg ->
    terminal_error resp (printed ("Error. " ++ py_str P msg)).

(** How the item [it] comes from the photo [r] when it is uploaded as
    request number [n]. *)
Definition uploaded (dups : list value) (w : world) (n : nat)
    (r : info) (it : item) : Prop :=
  (exists w0 w1, filename P dups r w0 = (Ok (i_name it), w1)) /\
  href_of_reply w n = Ok (i_href it) /\
  i_height it = height r /\ i_width it = width r.

(** The local calendar date of a record, when its [date] is an integer
    instant that the platform converts. *)
Definition calendar_date (r : info) : option struct_time :=
  match date r with
  | VInt t =>
      match localtime_at P t with
      | Ok tm => Some tm
      | Err _ => None
      end
  | _ => None
  end.

(** A photo record of the specification (section 3): the popularity is a
    non-negative integer and the creation time an integer timestamp, one
    that has a local calendar date. *)
Definition photo_record (r : info) : Prop :=
  (exists p, likes r = VInt p /\ 0 <= p) /\
  (exists tm, calendar_date r = Some tm).

(** The name section 4.2 of the specification gives a record among
    [files_info]: the decimal popularity, followed by a dash and the date
    when that popularity occurs more than once. *)
Definition spec_name (files_info : list info) (r : info) : string :=
  match likes r, calendar_date r with
  | VInt p, Some tm =>
      if count (VInt p) (map likes files_info) >? 1
      then str_of_int p ++ "-" ++ strftime_d_m_Y tm
      else str_of_int p
  | _, _ => ""
  end.

End Vocabulary.

(** ** Worlds and photos for the examples *)

(** A platform to run examples on: local time is UTC and every instant
    converts. *)
Definition utc : platform :=
  mkPlatform (fun _ => 0) (fun _ => true) (fun _ => true) (fun _ => "").

(** A world whose network gives the replies of [replies], in order, then
    fails; the console input is [lines]. *)
Definition scripted (replies : list (result response)) (lines : list string)
  : world :=
  mkWorld lines [] (fun n => nth n replies (Err RequestException)) []
          (fun _ => 0%Q) 0%nat (Ok "vk-token") true [].

(** Local time three hours ahead of UTC. *)
Definition moscow : platform :=
  mkPlatform (fun _ => 10800) (fun _ => true) (fun _ => true) (fun _ => "").

(** Two photos with five likes each, taken at 21:00 UTC on 1 May 2021 and
    a day later. *)
Definition evening_photos : list info :=
  [mkInfo (VInt 5) (VStr "https://vk/a.jpg") (VInt 1619902800) (VInt 600) (VInt 800);
   mkInfo (VInt 5) (VStr "https://vk/b.jpg") (VInt 1619989200) (VInt 600) (VInt 800)].

(** The photos of the specification's example and a run that uploads them:
    the storage answers the folder request and the three imports. *)
Definition example_photos : list info :=
  [mkInfo (VInt 5) (VStr "https://vk/a.jpg") (VInt 1619827200) (VInt 600) (VInt 800);
   mkInfo (VInt 5) (VStr "https://vk/b.jpg") (VInt 1619913600) (VInt 600) (VInt 800);
   mkInfo (VInt 7) (VStr "https://vk/c.jpg") (VInt 1619827200) (VInt 480) (VInt 640)].

Definition stored (href : string) : result response :=
  Ok (mkResponse 201 (Some (VDict [("href", VStr href)]))).

Definition example_world : world :=
  scripted [stored "disk/backup"; stored "op/1"; stored "op/2"; stored "op/3"]
           ["disk-token"; "backup"].


(** * Properties *)

(** ** Decimal strings *)

Module Strings.

Lemma occurs_app c s t : occurs c (s ++ t) = occurs c s || occurs c t.
Proof.
  induction s as [|a s IH]; simpl; [reflexivity|].
  now rewrite IH, orb_assoc.
Qed.

(** Two strings that agree after a separator which neither prefix
    contains have the same prefix and the same rest. *)
Lemma split_at_first c s1 s2 t1 t2 :
  occurs c s1 = false -> occurs c s2 = false ->
  s1 ++ String c t1 = s2 ++ String c t2 -> s1 = s2 /\ t1 = t2.
Proof.
  revert s2. induction s1 as [|a s1 IH]; intros [|b s2]; simpl; intros H1 H2 E.
  - now inversion E.
  - inversion E; subst. now rewrite Ascii.eqb_refl in H2.
  - inversion E; subst. now rewrite Ascii.eqb_refl in H1.
  - apply orb_false_iff in H1 as [_ H1]. apply orb_false_iff in H2 as [_ H2].
    inversion E; subst. destruct (IH s2 H1 H2) as [-> ->]; auto.
Qed.

Lemma uint_digits c d :
  c <> "0"%char -> c <> "1"%char -> c <> "2"%char -> c <> "3"%char ->
  c <> "4"%char -> c <> "5"%char -> c <> "6"%char -> c <> "7"%char ->
  c <> "8"%char -> c <> "9"%char ->
  occurs c (NilEmpty.string_of_uint d) = false.
Proof.
  intros. induction d; cbn [occurs NilEmpty.string_of_uint]; trivial;
    rewrite IHd, orb_false_r; apply Ascii.eqb_neq; congruence.
Qed.

Lemma str_of_int_digits c n :
  0 <= n ->
  c <> "0"%char -> c <> "1"%char -> c <> "2"%char -> c <> "3"%char ->
  c <> "4"%char -> c <> "5"%char -> c <> "6"%char -> c <> "7"%char ->
  c <> "8"%char -> c <> "9"%char ->
  occurs c (str_of_int n) = false.
Proof.
  intros Hn. intros. unfold str_of_int.
  destruct n as [|p|p]; [| |lia].
  - cbn [Z.to_int NilZero.string_of_int]. now apply uint_digits.
  - cbn [Z.to_int NilZero.string_of_int]. unfold NilZero.string_of_uint.
    destruct (Pos.to_uint p) eqn:E; try (rewrite <- E; now apply uint_digits).
    cbn [occurs]. rewrite orb_false_r. apply Ascii.eqb_neq; congruence.
Qed.

Lemma str_of_int_no_dash n : 0 <= n -> occurs "-" (str_of_int n) = false.
Proof. intros; apply str_of_int_digits; trivial; discriminate. Qed.

Lemma str_of_int_inj a b : str_of_int a = str_of_int b -> a = b.
Proof.
  unfold str_of_int. intros E.
  assert (N : forall z, Z.to_int z <> Decimal.Pos Decimal.Nil /\
                        Z.to_int z <> Decimal.Neg Decimal.Nil).
  { intros [|p|p]; simpl; split; try discriminate;
      intros [= F]; revert F; apply DecimalPos.Unsigned.to_uint_nonnil. }
  apply DecimalZ.to_int_inj.
  assert (S : Some (Z.to_int a) = Some (Z.to_int b)).
  { rewrite <- (NilZero.isi (Z.to_int a)), <- (NilZero.isi (Z.to_int b));
      try apply N. now rewrite E. }
  now inversion S.
Qed.

End Strings.

(** ** Calendar dates and their text *)

Module Calendar.

Lemma civil_from_days_valid days : valid_date (civil_from_days days).
Proof.
  unfold valid_date, civil_from_days; cbn [tm_mon tm_mday].
  set (doe := (days + 719468) mod 146097).
  assert (Hdoe : 0 <= doe < 146097) by (apply Z.mod_pos_bound; lia).
  set (yoe := (doe - doe / 1460 + doe / 36524 - doe / 146096) / 365).
  set (doy := doe - (365 * yoe + yoe / 4 - yoe / 100)).
  assert (Hdoy : 0 <= doy <= 365)
    by (subst doy yoe; Z.div_mod_to_equations; lia).
  set (mp := (5 * doy + 2) / 153).
  assert (Hmp : 0 <= mp <= 11) by (subst mp; Z.div_mod_to_equations; lia).
  split.
  - destruct (mp <? 10) eqn:E; [apply Z.ltb_lt in E | apply Z.ltb_ge in E]; lia.
  - subst mp. Z.div_mod_to_equations; lia.
Qed.

Lemma digit_inj a b : 0 <= a <= 9 -> 0 <= b <= 9 -> digit a = digit b -> a = b.
Proof.
  unfold digit. intros Ha Hb E.
  apply (f_equal nat_of_ascii) in E.
  rewrite !nat_ascii_embedding in E by lia. lia.
Qed.

Lemma pad2_inj a b : 0 <= a <= 99 -> 0 <= b <= 99 -> pad2 a = pad2 b -> a = b.
Proof.
  unfold pad2. intros Ha Hb E. inversion E as [[E1 E2]].
  apply digit_inj in E1; [|Z.div_mod_to_equations; lia ..].
  apply digit_inj in E2; [|Z.div_mod_to_equations; lia ..].
  Z.div_mod_to_equations; lia.
Qed.

(** The text of a date determines the date. *)
Lemma strftime_inj t1 t2 :
  valid_date t1 -> valid_date t2 -> strftime_d_m_Y t1 = strftime_d_m_Y t2 -> t1 = t2.
Proof.
  intros [Hm1 Hd1] [Hm2 Hd2]. destruct t1 as [y1 m1 d1], t2 as [y2 m2 d2].
  unfold strftime_d_m_Y; cbn [tm_year tm_mon tm_mday] in *.
  intros E.
  assert (Ed : pad2 d1 = pad2 d2 /\ pad2 m1 = pad2 m2 /\
               str_of_int y1 = str_of_int y2).
  { unfold pad2 in *; cbn [append] in E.
    injection E as E1 E2 E3 E4 Ey. now rewrite E1, E2, E3, E4, Ey. }
  destruct Ed as (Ed & Em & Ey).
  apply pad2_inj in Ed; [|lia ..]. apply pad2_inj in Em; [|lia ..].
  apply Strings.str_of_int_inj in Ey. now subst.
Qed.

End Calendar.

(** ** Stepping through computations *)

Lemma bind_ok {A B : Type} (m : M A) (f : A -> M B) w b w' :
  bind m f w = (Ok b, w') ->
  exists a w1, m w = (Ok a, w1) /\ f a w1 = (Ok b, w').
Proof.
  unfold bind. destruct (m w) as [[a|e] w1]; intros E; [eauto|discriminate].
Qed.

Lemma bind_cases {A B : Type} (m : M A) (f : A -> M B) w r w' :
  bind m f w = (r, w') ->
  (exists e, m w = (Err e, w') /\ r = Err e) \/
  (exists a w1, m w = (Ok a, w1) /\ f a w1 = (r, w')).
Proof.
  unfold bind. destruct (m w) as [[a|e] w1]; intros E.
  - right; eauto.
  - left. inversion E; subst; eauto.
Qed.

Lemma lift_inv {A : Type} (x : result A) w r w' :
  lift x w = (r, w') -> r = x /\ w' = w.
Proof. unfold lift. intros E; inversion E; auto. Qed.

Lemma untouched_refl w : untouched w w.
Proof. repeat split. Qed.

Lemma untouched_trans w1 w2 w3 :
  untouched w1 w2 -> untouched w2 w3 -> untouched w1 w3.
Proof.
  intros (a & b & c) (a' & b' & c'); repeat split; congruence.
Qed.

Lemma silent_bind {A B : Type} (m : M A) (f : A -> M B) :
  silent m -> (forall a, silent (f a)) -> silent (bind m f).
Proof.
  intros Hm Hf w r w' E. apply bind_cases in E as [(e & E & _)|(a & w1 & E1 & E2)].
  - eapply Hm; eauto.
  - eapply untouched_trans; [eapply Hm|eapply Hf]; eauto.
Qed.

Lemma silent_lift {A : Type} (x : result A) : silent (lift x).
Proof. intros w r w' E. apply lift_inv in E as [_ ->]. apply untouched_refl. Qed.

Lemma silent_ret {A : Type} (a : A) : silent (ret a).
Proof. intros w r w' E. inversion E; subst. apply untouched_refl. Qed.

Lemma silent_raise {A : Type} (e : exn) : silent (@raise A e).
Proof. intros w r w' E. inversion E; subst. apply untouched_refl. Qed.

Lemma silent_print s : silent (print s).
Proof. intros w r w' E. inversion E; subst. repeat split. Qed.

Lemma silent_input s : silent (input s).
Proof.
  intros w r w' E. unfold input in E. cbn in E.
  destruct (stdin w); inversion E; subst; repeat split.
Qed.

Lemma silent_time_time : silent time_time.
Proof. intros w r w' E. inversion E; subst. repeat split. Qed.

Create HintDb silent.
#[local] Hint Resolve silent_lift silent_ret silent_raise silent_print
  silent_input silent_time_time : silent.

Section Validation.

Variable P : platform.

Lemma silent_localtime v : silent (localtime P v).
Proof.
  destruct v; cbn [localtime]; auto with silent.
  apply silent_bind; auto with silent.
Qed.

Lemma silent_response_processing resp : silent (response_processing P resp).
Proof.
  unfold response_processing, exit.
  destruct (_ && _).
  { apply silent_bind; auto with silent. }
  destruct (_ && _).
  { apply silent_bind; auto with silent. }
  apply silent_bind; auto with silent. intros v.
  apply silent_bind; auto with silent. intros e.
  destruct e; auto with silent;
    repeat (apply silent_bind; auto with silent; intros).
Qed.

Lemma silent_filename dups r : silent (filename P dups r).
Proof.
  unfold filename. apply silent_bind; auto with silent. intros [|].
  - apply silent_bind; auto using silent_localtime with silent.
  - auto with silent.
Qed.

Lemma stops_silent {A : Type} (m : M A) : silent m -> stops_at_rejection P m.
Proof.
  intros S w r w' E. destruct (S _ _ _ E) as (Hs & Hn & Hf).
  split; [assumption|]. split; [assumption|]. rewrite Hs. split; [lia|].
  intros n resp line Hlt. lia.
Qed.

Lemma stops_bind {A B : Type} (m : M A) (f : A -> M B) :
  stops_at_rejection P m -> (forall a, stops_at_rejection P (f a)) ->
  stops_at_rejection P (bind m f).
Proof.
  intros Hm Hf w r w' E.
  apply bind_cases in E as [(e & E & ->)|(a & w1 & E1 & E2)].
  - destruct (Hm _ _ _ E) as (N1 & F1 & L1 & T1).
    repeat (split; [assumption|]).
    intros n resp line Hn Hr Hj.
    destruct (T1 n resp line Hn Hr Hj) as (Ee & Hl & Ho).
    inversion Ee; subst. auto.
  - destruct (Hm _ _ _ E1) as (N1 & F1 & L1 & T1).
    destruct (Hf a _ _ _ E2) as (N2 & F2 & L2 & T2).
    split; [congruence|]. split; [congruence|]. split; [lia|].
    intros n resp line Hn Hr Hj.
    destruct (Nat.lt_ge_cases n (List.length (sent w1))) as [Lt|Ge].
    + destruct (T1 n resp line) as (Bad & _); auto; try lia. discriminate.
    + apply (T2 n resp line); auto; try lia. now rewrite N1.
Qed.

(** The one place where responses arrive: a request followed by
    [response_processing]. *)
Lemma stops_request {A : Type} rq (k : response -> M A) :
  (forall resp, stops_at_rejection P (k resp)) ->
  stops_at_rejection P
    (response <- http rq ;; response_processing P response ;;; k response).
Proof.
  intros Hk w r w' E.
  unfold bind at 1 in E. unfold http in E.
  set (w1 := set_sent (sent w ++ [rq]) w) in *.
  assert (L1 : List.length (sent w1) = S (List.length (sent w)))
    by (cbn; rewrite length_app; cbn; lia).
  destruct (network w (List.length (sent w))) as [resp0|e] eqn:N.
  2:{ inversion E; subst. split; [reflexivity|]. split; [reflexivity|].
      split; [lia|].
      intros n resp line Hn Hr _. assert (n = List.length (sent w)) by lia.
      subst n. congruence. }
  apply bind_cases in E as [(e & E & ->)|([] & w2 & E1 & E2)].
  - destruct (silent_response_processing _ _ _ _ E) as (S2 & N2 & F2).
    split; [now rewrite N2|]. split; [now rewrite F2|].
    split; [rewrite S2; lia|].
    intros n resp line Hn Hr Hj. rewrite S2 in Hn |- *.
    assert (n = List.length (sent w)) by lia. subst n.
    rewrite N in Hr; inversion Hr; subst resp0.
    rewrite (Hj w1) in E. inversion E; subst. cbn. split; auto. split.
    + rewrite length_app; cbn; lia.
    + eauto.
  - destruct (silent_response_processing _ _ _ _ E1) as (S2 & N2 & F2).
    destruct (Hk resp0 _ _ _ E2) as (N3 & F3 & L3 & T3).
    split; [now rewrite N3, N2|]. split; [now rewrite F3, F2|].
    split; [rewrite S2 in L3; lia|].
    intros n resp line Hn Hr Hj.
    destruct (Nat.eq_dec n (List.length (sent w))) as [->|Ne].
    + rewrite N in Hr; inversion Hr; subst resp0.
      rewrite (Hj w1) in E1. discriminate.
    + apply (T3 n resp line); auto.
      * rewrite S2. lia.
      * now rewrite N2.
Qed.

End Validation.

(** ** Response validation and what follows a rejection *)

Section Rejection.

Variable P : platform.

Lemma rejects_client resp :
  400 <= status_code resp < 500 ->
  rejects P resp (printed ("Client error " ++ str_of_int (status_code resp))).
Proof.
  intros H w. unfold response_processing.
  replace ((400 <=? status_code resp) && (status_code resp <? 500)) with true
    by (symmetry; apply andb_true_iff; split; [apply Z.leb_le|apply Z.ltb_lt]; lia).
  reflexivity.
Qed.

Lemma rejects_server resp :
  500 <= status_code resp < 600 ->
  rejects P resp (printed ("Server error " ++ str_of_int (status_code resp))).
Proof.
  intros H w. unfold response_processing.
  replace ((400 <=? status_code resp) && (status_code resp <? 500)) with false
    by (symmetry; apply andb_false_iff; right; apply Z.ltb_ge; lia).
  replace ((500 <=? status_code resp) && (status_code resp <? 600)) with true
    by (symmetry; apply andb_true_iff; split; [apply Z.leb_le|apply Z.ltb_lt]; lia).
  reflexivity.
Qed.

Lemma rejects_api resp kvs err msg :
  ~ 400 <= status_code resp < 600 ->
  body resp = Some (VDict kvs) ->
  dict_get "error" kvs = Some (VDict err) ->
  dict_get "error_msg" err = Some msg ->
  rejects P resp (printed ("Error. " ++ py_str P msg)).
Proof.
  intros H Hb He Hm w. unfold response_processing.
  replace ((400 <=? status_code resp) && (status_code resp <? 500)) with false
    by (symmetry; apply andb_false_iff;
        destruct (Z.leb_spec 400 (status_code resp)); [right|left; reflexivity];
        apply Z.ltb_ge; lia).
  replace ((500 <=? status_code resp) && (status_code resp <? 600)) with false
    by (symmetry; apply andb_false_iff;
        destruct (Z.leb_spec 500 (status_code resp)); [right|left; reflexivity];
        apply Z.ltb_ge; lia).
  unfold response_json, bind, lift. rewrite Hb.
  cbn [dict_get_method getitem]. rewrite He. cbn [getitem]. rewrite Hm.
  reflexivity.
Qed.

Lemma silent_for_each {A B : Type} (f : A -> M B) l :
  (forall x, silent (f x)) -> silent (for_each f l).
Proof.
  intros Hf. induction l as [|x l IH]; cbn [for_each]; auto with silent.
  apply silent_bind; auto. intros y. apply silent_bind; auto with silent.
Qed.

Lemma stops_for_each {A B : Type} (f : A -> M B) l :
  (forall x, stops_at_rejection P (f x)) -> stops_at_rejection P (for_each f l).
Proof.
  intros Hf. induction l as [|x l IH]; cbn [for_each].
  - apply stops_silent; auto with silent.
  - apply stops_bind; auto. intros y. apply stops_bind; auto.
    intros ys. apply stops_silent; auto with silent.
Qed.

Lemma stops_get_photos_info self album_id :
  stops_at_rejection P (get_photos_info P self album_id).
Proof.
  unfold get_photos_info. apply stops_request. intros resp.
  apply stops_silent.
  repeat (apply silent_bind; auto with silent; intros).
  apply silent_for_each; auto with silent.
Qed.

Lemma stops_create_dir self dirname :
  stops_at_rejection P (create_dir P self dirname).
Proof.
  unfold create_dir. apply stops_request. intros resp.
  apply stops_silent; auto with silent.
Qed.

Lemma stops_upload_one self dirname upload_url dups r :
  stops_at_rejection P (upload_one P self dirname upload_url dups r).
Proof.
  unfold upload_one. apply stops_bind.
  - apply stops_silent, silent_filename.
  - intros name. apply stops_request. intros resp. apply stops_silent.
    repeat (apply silent_bind; auto with silent; intros).
Qed.

Lemma stops_upload_files self files_info dirname :
  stops_at_rejection P (upload_files P self files_info dirname).
Proof.
  unfold upload_files.
  apply stops_bind; [apply stops_silent; auto with silent|]. intros dups.
  apply stops_bind; [apply stops_create_dir|]. intros dir.
  apply stops_bind; [apply stops_silent; auto with silent|]. intros href.
  apply stops_bind; [apply stops_silent; auto with silent|]. intros now.
  apply stops_bind; [apply stops_for_each; intros; apply stops_upload_one|].
  intros items. apply stops_silent; auto with silent.
Qed.

End Rejection.

(** ** Claims on response validation *)

Section Terminal.

Variable P : platform.

Lemma terminal_error_rejects resp line :
  terminal_error P resp line -> rejects P resp line.
Proof.
  intros [r H|r H|r kvs err msg H Hb He Hm];
    eauto using rejects_client, rejects_server, rejects_api.
Qed.

Lemma stops_main_upload photos :
  stops_at_rejection P (main_upload P photos).
Proof.
  unfold main_upload.
  apply stops_bind; [apply stops_silent; auto with silent|]. intros _.
  apply stops_bind; [apply stops_silent; auto with silent|]. intros tok.
  apply stops_bind; [apply stops_silent; auto with silent|]. intros dirname.
  apply stops_bind; [apply stops_silent; auto with silent|]. intros client.
  apply stops_upload_files.
Qed.

(** [main_backup] writes the file only when it completes. *)
Lemma main_backup_file photos w r w' :
  main_backup P photos w = (r, w') ->
  (exists e, r = Err e /\ files w' = files w) \/
  (exists m w1, r = Ok tt /\ main_upload P photos w = (Ok m, w1) /\
                files w' = (files w ++ [("output.json", m)])%list).
Proof.
  unfold main_backup. intros E.
  apply bind_cases in E as [(e & E & ->)|(m & w1 & E1 & E2)].
  - left. exists e. split; auto.
    now destruct (stops_main_upload _ _ _ _ E) as (_ & F & _).
  - destruct (stops_main_upload _ _ _ _ E1) as (_ & F & _).
    unfold bind, dump_to_file, print in E2.
    destruct (writable w1); inversion E2; subst.
    + right. exists m, w1. cbn. rewrite F. auto.
    + left. exists OSError. auto.
Qed.

(** A rejected response ends [main_backup] too. *)
Lemma main_backup_rejection photos w r w' n resp line :
  main_backup P photos w = (r, w') ->
  (List.length (sent w) <= n < List.length (sent w'))%nat ->
  network w n = Ok resp ->
  rejects P resp line ->
  r = Err (SystemExit None) /\ List.length (sent w') = S n /\
  (exists out, stdout w' = (out ++ [line])%list) /\ files w' = files w.
Proof.
  unfold main_backup. intros E Hn Hr Hj.
  apply bind_cases in E as [(e & E & ->)|(m & w1 & E1 & E2)].
  - destruct (stops_main_upload _ _ _ _ E) as (_ & F & _ & T).
    destruct (T n resp line Hn Hr Hj) as (Ee & L & O).
    inversion Ee; subst. auto.
  - destruct (stops_main_upload _ _ _ _ E1) as (_ & F & L1 & T).
    assert (S : sent w' = sent w1).
    { unfold bind, dump_to_file, print in E2.
      destruct (writable w1); inversion E2; subst; reflexivity. }
    rewrite S in Hn. destruct (T n resp line Hn Hr Hj) as (Bad & _).
    discriminate.
Qed.

End Terminal.

(** C3.  Whatever response validation meets of the three kinds of terminal
    error, [response_processing] prints the line of that kind ([Client
    error], [Server error], or [Error.] with the body's message) and raises
    [SystemExit]; the gateway call that received the response returns
    nothing ([get_photos_info], [__create_dir], [upload_files] at any of
    its requests), and the rest of the main module writes no file. *)
Theorem terminal_errors_end_the_run (P : platform) resp line :
  terminal_error P resp line ->
  (forall w,
      response_processing P resp w =
      (Err (SystemExit None), set_stdout (stdout w ++ [line]) w)) /\
  (forall self album_id w,
      network w (List.length (sent w)) = Ok resp ->
      exists w',
        get_photos_info P self album_id w = (Err (SystemExit None), w') /\
        files w' = files w) /\
  (forall self dirname w,
      network w (List.length (sent w)) = Ok resp ->
      exists w',
        create_dir P self dirname w = (Err (SystemExit None), w') /\
        files w' = files w) /\
  (forall self files_info dirname w r w' n,
      upload_files P self files_info dirname w = (r, w') ->
      (List.length (sent w) <= n < List.length (sent w'))%nat ->
      network w n = Ok resp ->
      r = Err (SystemExit None) /\ files w' = files w) /\
  (forall photos w r w' n,
      main_backup P photos w = (r, w') ->
      (List.length (sent w) <= n < List.length (sent w'))%nat ->
      network w n = Ok resp ->
      r = Err (SystemExit None) /\ files w' = files w).
Proof.
  intros T. pose proof (terminal_error_rejects P _ _ T) as R.
  split; [exact R|]. split; [|split; [|split]].
  - intros self album_id w N. unfold get_photos_info, bind, http.
    rewrite N, R. eexists; split; reflexivity.
  - intros self dirname w N. unfold create_dir, bind, http.
    rewrite N, R. eexists; split; reflexivity.
  - intros self files_info dirname w r w' n E Hn N.
    destruct (stops_upload_files P _ _ _ _ _ _ E) as (_ & F & _ & S).
    destruct (S n resp line Hn N R) as (-> & _). auto.
  - intros photos w r w' n E Hn N.
    destruct (main_backup_rejection P _ _ _ _ _ _ _ E Hn N R) as (-> & _ & _ & F).
    auto.
Qed.

Lemma terminal_errors_end_the_run_witness :
  let resp := mkResponse 404 None in
  let w := scripted [Ok resp] [] in
  terminal_error utc resp (printed "Client error 404") /\
  response_processing utc resp w =
    (Err (SystemExit None),
     set_stdout (stdout w ++ [printed "Client error 404"]) w) /\
  exists w',
    get_photos_info utc (VKClient_init "token" "1" "5.199") "profile" w =
      (Err (SystemExit None), w') /\ files w' = files w.
Proof.
  intros resp w.
  assert (T : terminal_error utc resp (printed "Client error 404"))
    by (apply (client_error utc resp); cbn; lia).
  split; [exact T|].
  destruct (terminal_errors_end_the_run utc resp _ T) as (R & G & _).
  split; [apply R|]. apply G. reflexivity.
Defined.

(** C4, as stated, fails: a response with status 404 to the folder
    request makes the program print its line and stop, but the halt is
    [exit()] without a code, whose exit status is 0. *)
Lemma nonzero_halt_counterexample :
  let run := main_backup utc []
               (scripted [Ok (mkResponse 404 None)] ["token"; "backup"]) in
  fst run = Err (SystemExit None) /\
  last (stdout (snd run)) "" = printed "Client error 404" /\
  files (snd run) = [] /\
  ~ exit_status (fst run) <> 0.
Proof.
  cbv zeta. repeat split; try reflexivity. intros H. apply H. reflexivity.
Qed.

(** C4, amended.  For every terminal error (a 4xx or 5xx status, or an
    error object in the body) the program prints the line of that error and
    stops by [exit()] with no code, that is with exit status 0, and no
    output file has been written: in the main module from the photo list
    on, and in the album fetch.  The main module writes [output.json] only
    when the upload has returned its manifest. *)
Theorem terminal_error_halts_before_output (P : platform) :
  (forall resp line,
      terminal_error P resp line ->
      (forall photos w r w' n,
          main_backup P photos w = (r, w') ->
          (List.length (sent w) <= n < List.length (sent w'))%nat ->
          network w n = Ok resp ->
          (exists out, stdout w' = (out ++ [line])%list) /\
          r = Err (SystemExit None) /\ exit_status r = 0 /\
          files w' = files w) /\
      (forall self album_id w r w' n,
          get_photos_info P self album_id w = (r, w') ->
          (List.length (sent w) <= n < List.length (sent w'))%nat ->
          network w n = Ok resp ->
          (exists out, stdout w' = (out ++ [line])%list) /\
          r = Err (SystemExit None) /\ exit_status r = 0 /\
          files w' = files w)) /\
  (forall photos w r w',
      main_backup P photos w = (r, w') ->
      (exists e, r = Err e /\ files w' = files w) \/
      (exists m w1,
          r = Ok tt /\ main_upload P photos w = (Ok m, w1) /\
          files w' = (files w ++ [("output.json", m)])%list)).
Proof.
  split; [|apply main_backup_file].
  intros resp line T. pose proof (terminal_error_rejects P _ _ T) as R. split.
  - intros photos w r w' n E Hn N.
    destruct (main_backup_rejection P _ _ _ _ _ _ _ E Hn N R)
      as (-> & _ & O & F).
    auto.
  - intros self album_id w r w' n E Hn N.
    destruct (stops_get_photos_info P _ _ _ _ _ E) as (_ & F & _ & S).
    destruct (S n resp line Hn N R) as (-> & _ & O). auto.
Qed.

Lemma terminal_error_halts_before_output_witness :
  let resp := mkResponse 503 None in
  let w := scripted [stored "disk/backup"; Ok resp] ["token"; "backup"] in
  let photos := [mkInfo (VInt 5) (VStr "u") (VInt 0) (VInt 1) (VInt 1)] in
  terminal_error utc resp (printed "Server error 503") /\
  (exists out,
      stdout (snd (main_backup utc photos w)) =
      (out ++ [printed "Server error 503"])%list) /\
  exit_status (fst (main_backup utc photos w)) = 0 /\
  files (snd (main_backup utc photos w)) = files w.
Proof.
  intros resp w photos.
  assert (T : terminal_error utc resp (printed "Server error 503"))
    by (apply (server_error utc resp); cbn; lia).
  split; [exact T|].
  destruct (proj1 (terminal_error_halts_before_output utc) resp _ T) as (B & _).
  destruct (B photos w (fst (main_backup utc photos w))
              (snd (main_backup utc photos w)) 1%nat) as (O & _ & S & F).
  - now destruct (main_backup utc photos w).
  - vm_compute. lia.
  - reflexivity.
  - auto.
Defined.

(** C10.  The status is looked at before the body: for a status from 400
    to 599 the outcome is the line of the status and [SystemExit],
    whatever the body, so an error object in the body of a 4xx response
    does not turn it into an [Error.] line and a body that is not JSON
    raises nothing; for any other status the body is decoded, and one that
    is not JSON raises the decoding error. *)
Theorem status_checked_before_body (P : platform) (code : Z) (w : world) :
  (400 <= code < 600 ->
   forall b,
     response_processing P (mkResponse code b) w =
     (Err (SystemExit None),
      set_stdout
        (stdout w ++
         [printed ((if code <? 500 then "Client error " else "Server error ")
                   ++ str_of_int code)]) w)) /\
  (~ 400 <= code < 600 ->
   response_processing P (mkResponse code None) w = (Err JSONDecodeError, w)).
Proof.
  split.
  - intros H b. destruct (Z.ltb_spec code 500).
    + apply (rejects_client P (mkResponse code b)). cbn. lia.
    + apply (rejects_server P (mkResponse code b)). cbn. lia.
  - intros H. unfold response_processing. cbn [status_code].
    replace ((400 <=? code) && (code <? 500)) with false
      by (symmetry; apply andb_false_iff;
          destruct (Z.leb_spec 400 code); [right|left; reflexivity];
          apply Z.ltb_ge; lia).
    replace ((500 <=? code) && (code <? 600)) with false
      by (symmetry; apply andb_false_iff;
          destruct (Z.leb_spec 500 code); [right|left; reflexivity];
          apply Z.ltb_ge; lia).
    reflexivity.
Qed.

Lemma status_checked_before_body_witness :
  let w := scripted [] [] in
  let api := Some (VDict [("error", VDict [("error_msg", VStr "denied")])]) in
  response_processing utc (mkResponse 403 api) w =
    (Err (SystemExit None),
     set_stdout (stdout w ++ [printed "Client error 403"]) w) /\
  response_processing utc (mkResponse 502 None) w =
    (Err (SystemExit None),
     set_stdout (stdout w ++ [printed "Server error 502"]) w) /\
  response_processing utc (mkResponse 200 None) w = (Err JSONDecodeError, w).
Proof.
  intros w api. split; [|split].
  - apply (proj1 (status_checked_before_body utc 403 w)). lia.
  - apply (proj1 (status_checked_before_body utc 502 w)). lia.
  - apply (proj2 (status_checked_before_body utc 200 w)). lia.
Defined.

(** ** The entry point *)

Lemma main_fetch_fails (P : platform) w :
  exists e w',
    main_fetch P w = (Err e, w') /\ untouched w w' /\
    (forall tok uid alb rest,
        settings w = Ok tok -> stdin w = uid :: alb :: rest -> e = TypeError).
Proof.
  unfold main_fetch, bind.
  destruct (settings w) as [tok|e] eqn:S.
  2:{ exists e, w. repeat split. intros; discriminate. }
  unfold input. cbn [stdin set_stdout].
  destruct (stdin w) as [|uid rest] eqn:I.
  { eexists _, _. split; [reflexivity|]. repeat split. intros; discriminate. }
  cbn [stdin set_stdin set_stdout].
  destruct rest as [|alb rest].
  { eexists _, _. split; [reflexivity|]. repeat split. intros; discriminate. }
  eexists _, _. split; [reflexivity|]. repeat split.
Qed.

(** C9.  The entry point never completes.  [VKClient(vk_token, user_id,
    album_id)] binds the album id to [version], so it is sent as the API
    version [v] and the client holds no album id; [get_photos_info()] lacks
    its required argument and raises [TypeError] before any request; hence
    every run of the main module ends in an exception with nothing sent and
    nothing written, and that exception is the [TypeError] as soon as the
    settings and the two answers are there. *)
Theorem entry_point_never_completes (P : platform) :
  (forall tok uid alb,
      new_VKClient [tok; uid; alb] = Ok (VKClient_init tok uid alb) /\
      dict_get "v" (vk_params (VKClient_init tok uid alb)) = Some (VStr alb) /\
      dict_get "album_id" (vk_params (VKClient_init tok uid alb)) = None) /\
  (forall self w, call_get_photos_info P self [] w = (Err TypeError, w)) /\
  (forall w,
      exists e w',
        main P w = (Err e, w') /\
        sent w' = sent w /\ files w' = files w /\
        (forall tok uid alb rest,
            settings w = Ok tok -> stdin w = uid :: alb :: rest ->
            e = TypeError)).
Proof.
  split; [|split].
  - intros tok uid alb. repeat split.
  - reflexivity.
  - intros w. destruct (main_fetch_fails P w) as (e & w' & E & (S & _ & F) & T).
    exists e, w'. unfold main, bind. rewrite E. auto.
Qed.

Lemma entry_point_never_completes_witness :
  let w := scripted [] ["1"; "wall"; "disk-token"; "backup"] in
  fst (main utc w) = Err TypeError /\ sent (snd (main utc w)) = [].
Proof.
  intros w.
  destruct (proj2 (proj2 (entry_point_never_completes utc)) w)
    as (e & w' & E & S & _ & T).
  rewrite E. cbn [fst snd]. split.
  - f_equal. apply (T "vk-token" "1" "wall" ["disk-token"; "backup"]); reflexivity.
  - exact S.
Defined.

(** ** A successful upload, step by step *)

Section Upload.

Variable P : platform.

Lemma upload_one_ok self dirname dups r w it w' :
  upload_one P self dirname (DISK_BASE_URL ++ "/upload") dups r w = (Ok it, w') ->
  uploaded P dups w (List.length (sent w)) r it /\
  sent w' = (sent w ++ [import_request self dirname r (i_name it)])%list /\
  network w' = network w.
Proof.
  unfold upload_one. intros E.
  apply bind_ok in E as (name & w0 & E0 & E).
  destruct (silent_filename P _ _ _ _ _ E0) as (S0 & N0 & _).
  apply bind_ok in E as (resp & w1 & E1 & E).
  unfold http in E1. inversion E1 as [[Hn Hw1]]. clear E1.
  apply bind_ok in E as ([] & w2 & E2 & E).
  destruct (silent_response_processing P _ _ _ _ E2) as (S2 & N2 & _).
  apply bind_ok in E as (v & w3 & E3 & E). apply lift_inv in E3 as [E3 ->].
  apply bind_ok in E as (href & w4 & E4 & E). apply lift_inv in E4 as [E4 ->].
  inversion E; subst it w'. clear E. cbn [i_name i_href i_height i_width].
  rewrite S0, N0 in Hn. split; [|split].
  - repeat split; eauto. unfold href_of_reply. now rewrite Hn, <- E3, <- E4.
  - rewrite S2, <- Hw1. cbn. now rewrite S0.
  - rewrite N2, <- Hw1. cbn. exact N0.
Qed.

Lemma upload_loop_ok self dirname dups l : forall w items w',
  for_each (upload_one P self dirname (DISK_BASE_URL ++ "/upload") dups) l w
    = (Ok items, w') ->
  List.length items = List.length l /\
  sent w' = (sent w ++ import_requests self dirname l items)%list /\
  network w' = network w /\
  forall i r, nth_error l i = Some r ->
    exists it, nth_error items i = Some it /\
               uploaded P dups w (List.length (sent w) + i) r it.
Proof.
  induction l as [|r l IH]; intros w items w' E; cbn [for_each] in E.
  - inversion E; subst. cbn. rewrite app_nil_r. repeat split.
    intros [|i] r H; discriminate.
  - apply bind_ok in E as (it & w1 & E1 & E).
    apply bind_ok in E as (its & w2 & E2 & E). inversion E; subst. clear E.
    apply upload_one_ok in E1 as (U & S1 & N1).
    apply IH in E2 as (L & S2 & N2 & I).
    split; [cbn; lia|]. split; [|split].
    + rewrite S2, S1, <- app_assoc. reflexivity.
    + congruence.
    + intros [|i] r' H; cbn in H.
      * inversion H; subst r'. exists it. split; [reflexivity|].
        now rewrite Nat.add_0_r.
      * destruct (I i r' H) as (it' & Hi & (F & Hh & Hd)).
        exists it'. split; [exact Hi|]. split; [exact F|]. split; [|exact Hd].
        unfold href_of_reply in *. rewrite N1 in Hh.
        rewrite S1, length_app in Hh. cbn in Hh.
        now replace (List.length (sent w) + S i)%nat
          with (List.length (sent w) + 1 + i)%nat by lia.
Qed.

(** What a successful [upload_files] returned and did. *)
Lemma upload_files_ok self files_info dirname w m w' :
  upload_files P self files_info dirname w = (Ok m, w') ->
  exists dups,
    duplicate_names (map likes files_info) = Ok dups /\
    m_name m = dirname /\
    m_count m = Z.of_nat (List.length files_info) /\
    href_of_reply w (List.length (sent w)) = Ok (m_href m) /\
    List.length (m_items m) = List.length files_info /\
    sent w' = (sent w ++ folder_request self dirname
                 :: import_requests self dirname files_info (m_items m))%list /\
    files w' = files w /\
    forall i r, nth_error files_info i = Some r ->
      exists it, nth_error (m_items m) i = Some it /\
                 uploaded P dups w (List.length (sent w) + 1 + i) r it.
Proof.
  intros E.
  destruct (stops_upload_files P _ _ _ _ _ _ E) as (_ & F & _).
  unfold upload_files in E.
  apply bind_ok in E as (dups & w0 & E0 & E). apply lift_inv in E0 as [E0 ->].
  apply bind_ok in E as (dir & w1 & E1 & E).
  unfold create_dir in E1.
  apply bind_ok in E1 as (resp & w2 & Eh & E1).
  unfold http in Eh. inversion Eh as [[Hn Hw2]]. clear Eh.
  apply bind_ok in E1 as ([] & w3 & Ep & E1).
  destruct (silent_response_processing P _ _ _ _ Ep) as (S3 & N3 & _).
  apply lift_inv in E1 as [E1 ->].
  apply bind_ok in E as (href & w4 & E4 & E). apply lift_inv in E4 as [E4 ->].
  apply bind_ok in E as (now & w5 & E5 & E).
  unfold time_time in E5. inversion E5 as [[Ht Hw5]]. clear E5.
  apply bind_ok in E as (items & w6 & E6 & E). inversion E; subst m w6. clear E.
  apply upload_loop_ok in E6 as (L & S6 & N6 & I).
  assert (Sw5 : sent w5 = (sent w ++ [folder_request self dirname])%list).
  { rewrite <- Hw5. cbn. rewrite S3, <- Hw2. reflexivity. }
  assert (Nw5 : network w5 = network w).
  { rewrite <- Hw5. cbn. rewrite N3, <- Hw2. reflexivity. }
  exists dups. cbn [m_name m_count m_href m_items].
  repeat (split; [solve [auto]|]).
  split. { unfold href_of_reply. now rewrite Hn, <- E1, <- E4. }
  split; [exact L|]. split.
  { rewrite S6, Sw5, <- app_assoc. reflexivity. }
  split; [exact F|].
  intros i r H. destruct (I i r H) as (it & Hi & (Fn & Hh & Hd)).
  exists it. split; [exact Hi|]. split; [exact Fn|]. split; [|exact Hd].
  unfold href_of_reply in *. rewrite Nw5 in Hh.
  rewrite Sw5, length_app in Hh. exact Hh.
Qed.

End Upload.

(** ** Claims on the upload pass *)

Lemma import_requests_nth self dirname l : forall items i r it,
  nth_error l i = Some r -> nth_error items i = Some it ->
  nth_error (import_requests self dirname l items) i =
  Some (import_request self dirname r (i_name it)).
Proof.
  induction l as [|r0 l IH]; intros [|it0 items] [|i] r it Hl Hi;
    cbn in *; try discriminate.
  - now inversion Hl; inversion Hi.
  - now apply IH.
Qed.

Lemma import_requests_length self dirname l : forall items,
  List.length items = List.length l ->
  List.length (import_requests self dirname l items) = List.length l.
Proof.
  induction l as [|r l IH]; intros [|it items] H; cbn in *;
    try discriminate; auto.
Qed.

(** C5.  After a successful [upload_files] the manifest's [count] is the
    number of its items, and the items are the records in their input
    order: the [i]-th item carries the height and width of the [i]-th
    record, the name computed for it, and the [href] answered to its
    upload, which is the request after the folder request and the [i]
    uploads before it. *)
Theorem manifest_count_and_order (P : platform) self files_info dirname w m w' :
  upload_files P self files_info dirname w = (Ok m, w') ->
  m_count m = Z.of_nat (List.length (m_items m)) /\
  List.length (m_items m) = List.length files_info /\
  exists dups,
    duplicate_names (map likes files_info) = Ok dups /\
    forall i r, nth_error files_info i = Some r ->
      exists it, nth_error (m_items m) i = Some it /\
                 uploaded P dups w (List.length (sent w) + 1 + i) r it.
Proof.
  intros E.
  apply upload_files_ok in E as (dups & D & _ & C & _ & L & _ & _ & I).
  split; [congruence|]. split; [exact L|]. exists dups. auto.
Qed.

Lemma manifest_count_and_order_witness :
  exists m w',
    upload_files utc (DiskClient_init "disk-token") example_photos "backup"
                 example_world = (Ok m, w') /\
    m_count m = 3 /\ List.length (m_items m) = 3%nat /\
    map i_width (m_items m) = [VInt 800; VInt 800; VInt 640].
Proof.
  eexists _, _. split; [vm_compute; reflexivity|].
  destruct (manifest_count_and_order utc (DiskClient_init "disk-token")
              example_photos "backup" example_world _ _ eq_refl)
    as (C & L & _).
  split; [exact (eq_trans C (f_equal Z.of_nat L))|].
  split; [exact L|reflexivity].
Defined.

(** C6.  A successful [upload_files] for N records issues exactly N+1
    requests: the folder request for [dirname], then one import per record
    in input order, to the path [dirname/name] of the name computed for
    that record, with the record's [url] as the address to fetch. *)
Theorem upload_issues_folder_then_one_import_each
    (P : platform) self files_info dirname w m w' :
  upload_files P self files_info dirname w = (Ok m, w') ->
  List.length (sent w') =
    (List.length (sent w) + (List.length files_info + 1))%nat /\
  nth_error (sent w') (List.length (sent w)) =
    Some (folder_request self dirname) /\
  exists dups,
    duplicate_names (map likes files_info) = Ok dups /\
    forall i r, nth_error files_info i = Some r ->
      exists name w0 w1,
        filename P dups r w0 = (Ok name, w1) /\
        nth_error (sent w') (List.length (sent w) + 1 + i) =
          Some (import_request self dirname r name).
Proof.
  intros E.
  apply upload_files_ok in E as (dups & D & _ & _ & _ & L & Hs & _ & I).
  split; [|split].
  - rewrite Hs, length_app. cbn [List.length].
    rewrite import_requests_length by exact L. lia.
  - rewrite Hs, nth_error_app2, Nat.sub_diag by lia. reflexivity.
  - exists dups. split; [exact D|]. intros i r H.
    destruct (I i r H) as (it & Hi & ((w0 & w1 & F) & _)).
    exists (i_name it), w0, w1. split; [exact F|].
    rewrite Hs, nth_error_app2 by lia.
    replace (List.length (sent w) + 1 + i - List.length (sent w))%nat
      with (S i) by lia.
    cbn [nth_error]. now apply import_requests_nth.
Qed.

Lemma upload_issues_folder_then_one_import_each_witness :
  exists m w',
    upload_files utc (DiskClient_init "disk-token") example_photos "backup"
                 example_world = (Ok m, w') /\
    List.length (sent w') = 4%nat /\
    nth_error (sent w') 0 =
      Some (folder_request (DiskClient_init "disk-token") "backup").
Proof.
  eexists _, _. split; [vm_compute; reflexivity|].
  destruct (upload_issues_folder_then_one_import_each utc
              (DiskClient_init "disk-token") example_photos "backup"
              example_world _ _ eq_refl)
    as (L & F & _).
  split; [exact L|exact F].
Defined.

(** ** The naming pass on photo records *)

Section Naming.

Variable P : platform.

Lemma set_of_hashable l :
  Forall (fun x => hashable x = true) l -> set_of l = Ok l.
Proof.
  induction 1 as [|x l H _ IH]; cbn [set_of]; [reflexivity|].
  now rewrite H, IH.
Qed.

Lemma photo_records_ints files_info :
  Forall (photo_record P) files_info -> all_ints (map likes files_info).
Proof.
  induction 1 as [|r l [(p & Hp & _) _] _ IH]; cbn [map]; constructor; eauto.
Qed.

Lemma duplicate_names_ints names :
  all_ints names ->
  duplicate_names names =
  Ok (map (fun name => if count name names >? 1 then name else VNone) names).
Proof.
  intros H. unfold duplicate_names. apply set_of_hashable.
  apply Forall_map. eapply Forall_impl; [|exact H].
  intros v (p & ->). cbn beta. now destruct (_ >? 1).
Qed.

Lemma set_contains_ints names p :
  all_ints names -> In (VInt p) names ->
  set_contains
    (map (fun name => if count name names >? 1 then name else VNone) names)
    (VInt p) = Ok (count (VInt p) names >? 1).
Proof.
  intros H Hin. unfold set_contains. cbn [hashable]. f_equal.
  destruct (count (VInt p) names >? 1) eqn:C.
  - apply existsb_exists. exists (VInt p). split.
    + apply in_map_iff. exists (VInt p). now rewrite C.
    + cbn. apply Z.eqb_refl.
  - apply not_true_is_false. intros E.
    apply existsb_exists in E as (y & Hy & E).
    apply in_map_iff in Hy as (x & <- & Hx).
    unfold all_ints in H. rewrite Forall_forall in H.
    destruct (H x Hx) as (q & ->).
    destruct (count (VInt q) names >? 1) eqn:C'; cbn in E; [|discriminate].
    apply Z.eqb_eq in E. subst q. congruence.
Qed.

(** On a photo record the code computes the specification's name, and
    touches nothing. *)
Lemma filename_photo files_info r :
  Forall (photo_record P) files_info -> In r files_info ->
  forall w,
    filename P
      (map (fun name =>
              if count name (map likes files_info) >? 1 then name else VNone)
           (map likes files_info)) r w
    = (Ok (spec_name P files_info r), w).
Proof.
  intros H Hin w. pose proof (photo_records_ints _ H) as Hi.
  rewrite Forall_forall in H. destruct (H r Hin) as ((p & Hp & _) & (tm & Ht)).
  unfold filename, bind, lift, spec_name. rewrite Hp, Ht.
  rewrite set_contains_ints; auto.
  2:{ rewrite <- Hp. now apply in_map. }
  destruct (_ >? 1); [|reflexivity].
  unfold calendar_date in Ht. destruct (date r); try discriminate.
  cbn [localtime]. unfold lift.
  destruct (localtime_at P n); inversion Ht; subst. reflexivity.
Qed.

Lemma for_each_filename dups (f : info -> string) l :
  (forall r w, In r l -> filename P dups r w = (Ok (f r), w)) ->
  forall w, for_each (filename P dups) l w = (Ok (map f l), w).
Proof.
  induction l as [|r l IH]; intros H w; cbn [for_each map]; [reflexivity|].
  unfold bind. rewrite H by (left; reflexivity).
  rewrite IH by (intros; apply H; now right). reflexivity.
Qed.

(** The pass returns, for photo records, the specification's names in the
    order of the records, whatever the world, and leaves the world alone. *)
Lemma assign_names_photos files_info :
  Forall (photo_record P) files_info ->
  forall w,
    assign_names P files_info w =
    (Ok (map (spec_name P files_info) files_info), w).
Proof.
  intros H w. unfold assign_names, bind, lift.
  rewrite duplicate_names_ints by now apply photo_records_ints.
  apply for_each_filename. intros r w0 Hin. now apply filename_photo.
Qed.

(** The names in the manifest of a successful upload are those of the
    naming pass. *)
Lemma upload_names files_info self dirname w m w' :
  Forall (photo_record P) files_info ->
  upload_files P self files_info dirname w = (Ok m, w') ->
  map i_name (m_items m) = map (spec_name P files_info) files_info.
Proof.
  intros H E.
  apply upload_files_ok in E as (dups & D & _ & _ & _ & L & _ & _ & I).
  rewrite duplicate_names_ints in D by now apply photo_records_ints.
  inversion D; subst dups. clear D.
  apply nth_error_ext. intros i. rewrite !nth_error_map.
  destruct (nth_error files_info i) as [r|] eqn:Hr.
  - destruct (I i r Hr) as (it & Hi & ((w0 & w1 & F) & _)).
    rewrite Hi. cbn. f_equal.
    rewrite filename_photo in F; eauto using nth_error_In.
    now inversion F.
  - apply nth_error_None in Hr.
    destruct (nth_error (m_items m) i) eqn:Hi; [|reflexivity].
    assert (Hi' : nth_error (m_items m) i <> None) by congruence.
    apply nth_error_Some in Hi'. lia.
Qed.

End Naming.

(** ** Claims on the assigned names *)

Lemma count_occurrence names : forall i v,
  nth_error names i = Some v -> py_eq v v = true -> 1 <= count v names.
Proof.
  unfold count. induction names as [|x l IH]; intros [|i] v H E; cbn in H;
    try discriminate.
  - inversion H; subst. cbn [filter]. rewrite E. cbn [List.length]. lia.
  - specialize (IH i v H E). cbn [filter]. destruct (py_eq x v); cbn [List.length]; lia.
Qed.

Lemma count_twice names : forall i j v,
  i <> j -> nth_error names i = Some v -> nth_error names j = Some v ->
  py_eq v v = true -> 1 < count v names.
Proof.
  induction names as [|x l IH]; intros [|i] [|j] v Hij Hi Hj E; cbn in Hi, Hj;
    try discriminate; try congruence.
  - inversion Hi; subst. pose proof (count_occurrence l j v Hj E) as C.
    unfold count in *. cbn [filter]. rewrite E. cbn [List.length]. lia.
  - inversion Hj; subst. pose proof (count_occurrence l i v Hi E) as C.
    unfold count in *. cbn [filter]. rewrite E. cbn [List.length]. lia.
  - assert (C : 1 < count v l) by (apply (IH i j); auto).
    unfold count in *. cbn [filter]. destruct (py_eq x v); cbn [List.length]; lia.
Qed.

Lemma calendar_date_valid (P : platform) r tm :
  calendar_date P r = Some tm -> valid_date tm.
Proof.
  unfold calendar_date, localtime_at. destruct (date r); try discriminate.
  destruct (negb _); [discriminate|]. destruct (negb _); [discriminate|].
  intros [= <-]. apply Calendar.civil_from_days_valid.
Qed.

(** C7.  On photo records the naming pass returns one name per record:
    the list of names has the length of the input, its [i]-th element is
    the name lines 131-132 compute for the [i]-th record, and these are the
    names, in order, of the items of a successful upload. *)
Theorem names_keep_length_and_order (P : platform) files_info :
  Forall (photo_record P) files_info ->
  exists names dups,
    (forall w, assign_names P files_info w = (Ok names, w)) /\
    List.length names = List.length files_info /\
    duplicate_names (map likes files_info) = Ok dups /\
    (forall i r, nth_error files_info i = Some r ->
       exists name, nth_error names i = Some name /\
                    forall w, filename P dups r w = (Ok name, w)) /\
    (forall self dirname w m w',
       upload_files P self files_info dirname w = (Ok m, w') ->
       map i_name (m_items m) = names).
Proof.
  intros H. eexists (map (spec_name P files_info) files_info), _.
  split; [now apply assign_names_photos|].
  split; [apply length_map|].
  split; [apply duplicate_names_ints; now apply (photo_records_ints P)|].
  split.
  - intros i r Hr. exists (spec_name P files_info r). split.
    + now rewrite nth_error_map, Hr.
    + intros w. apply filename_photo; eauto using nth_error_In.
  - intros self dirname w m w' E. eapply upload_names; eauto.
Qed.

Lemma example_photos_are_records : Forall (photo_record utc) example_photos.
Proof.
  unfold example_photos.
  repeat (apply Forall_cons;
          [split; [eexists; split; [reflexivity|lia]|eexists; reflexivity]|]).
  apply Forall_nil.
Defined.

Lemma names_keep_length_and_order_witness :
  exists names,
    (forall w, assign_names utc example_photos w = (Ok names, w)) /\
    List.length names = 3%nat.
Proof.
  destruct (names_keep_length_and_order utc example_photos
              example_photos_are_records) as (names & dups & A & L & _).
  exists names. split; [exact A|exact L].
Defined.

(** C2.  On photo records, a record whose popularity occurs once among the
    records is named by the decimal string of the popularity, and one whose
    popularity occurs more than once by that string, a dash, and its local
    calendar date as zero-padded day, month and year joined by underscores.
    So popularities 5, 5, 7 on 1 May, 2 May and 1 May 2021 give the names
    [5-01_05_2021], [5-02_05_2021] and [7]. *)
Theorem names_follow_collision_policy (P : platform) :
  (forall files_info,
      Forall (photo_record P) files_info ->
      exists names,
        (forall w, assign_names P files_info w = (Ok names, w)) /\
        (forall self dirname w m w',
            upload_files P self files_info dirname w = (Ok m, w') ->
            map i_name (m_items m) = names) /\
        forall i r p,
          nth_error files_info i = Some r -> likes r = VInt p ->
          (count (VInt p) (map likes files_info) = 1 ->
           nth_error names i = Some (str_of_int p)) /\
          (count (VInt p) (map likes files_info) > 1 ->
           exists tm,
             calendar_date P r = Some tm /\
             nth_error names i =
               Some (str_of_int p ++ "-" ++ strftime_d_m_Y tm))) /\
  (forall r1 r2 r3,
      likes r1 = VInt 5 -> likes r2 = VInt 5 -> likes r3 = VInt 7 ->
      calendar_date P r1 = Some (mkTm 2021 5 1) ->
      calendar_date P r2 = Some (mkTm 2021 5 2) ->
      calendar_date P r3 = Some (mkTm 2021 5 1) ->
      forall w,
        assign_names P [r1; r2; r3] w =
        (Ok ["5-01_05_2021"; "5-02_05_2021"; "7"], w)).
Proof.
  split.
  - intros files_info H. exists (map (spec_name P files_info) files_info).
    split; [now apply assign_names_photos|].
    split; [intros; eapply upload_names; eauto|].
    intros i r p Hr Hp. rewrite nth_error_map, Hr. cbn [option_map].
    rewrite Forall_forall in H.
    destruct (H r (nth_error_In _ _ Hr)) as (_ & (tm & Ht)).
    unfold spec_name. rewrite Hp, Ht. split.
    + intros ->. reflexivity.
    + intros C. exists tm. split; [reflexivity|].
      now replace (_ >? 1) with true by (symmetry; apply Z.gtb_lt; lia).
  - intros r1 r2 r3 L1 L2 L3 D1 D2 D3 w.
    rewrite assign_names_photos.
    + unfold spec_name. cbn [map]. rewrite L1, L2, L3, D1, D2, D3. reflexivity.
    + repeat (apply Forall_cons;
              [split; [eexists; split; [eassumption|lia]|eexists; eassumption]|]).
      apply Forall_nil.
Qed.

Lemma names_follow_collision_policy_witness :
  assign_names utc example_photos example_world =
  (Ok ["5-01_05_2021"; "5-02_05_2021"; "7"], example_world).
Proof.
  apply (proj2 (names_follow_collision_policy utc)); reflexivity.
Defined.

(** Two photo records at different places of the input get the same name
    only when they have the same popularity, and then only when they have
    the same calendar date (or when none of the two names has a date). *)
Lemma spec_name_collision (P : platform) files_info i j ri rj :
  Forall (photo_record P) files_info ->
  i <> j ->
  nth_error files_info i = Some ri -> nth_error files_info j = Some rj ->
  spec_name P files_info ri = spec_name P files_info rj ->
  likes ri = likes rj /\ calendar_date P ri = calendar_date P rj.
Proof.
  intros H Hij Hi Hj E. rewrite Forall_forall in H.
  destruct (H ri (nth_error_In _ _ Hi)) as ((pi & Li & Ni) & (ti & Di)).
  destruct (H rj (nth_error_In _ _ Hj)) as ((pj & Lj & Nj) & (tj & Dj)).
  unfold spec_name in E. rewrite Li, Lj, Di, Dj in E. rewrite Li, Lj, Di, Dj.
  pose proof (Strings.str_of_int_no_dash pi Ni) as Oi.
  pose proof (Strings.str_of_int_no_dash pj Nj) as Oj.
  destruct (Z.eq_dec pi pj) as [->|Ne].
  - split; [reflexivity|].
    assert (C : 1 < count (VInt pj) (map likes files_info)).
    { apply (count_twice _ i j); auto.
      - rewrite nth_error_map, Hi. cbn [option_map]. now rewrite Li.
      - rewrite nth_error_map, Hj. cbn [option_map]. now rewrite Lj.
      - cbn. apply Z.eqb_refl. }
    replace (_ >? 1) with true in E by (symmetry; apply Z.gtb_lt; lia).
    apply (Strings.split_at_first "-" (str_of_int pj) (str_of_int pj)
             (strftime_d_m_Y ti) (strftime_d_m_Y tj)) in E as [_ E']; auto.
    apply Calendar.strftime_inj in E'; eauto using calendar_date_valid.
    now subst.
  - exfalso. apply Ne.
    destruct (count (VInt pi) _ >? 1), (count (VInt pj) _ >? 1).
    + apply (Strings.split_at_first "-" (str_of_int pi) (str_of_int pj)
               (strftime_d_m_Y ti) (strftime_d_m_Y tj)) in E as [E _]; auto.
      now apply Strings.str_of_int_inj.
    + apply (f_equal (occurs "-")) in E.
      rewrite Strings.occurs_app, Oi, Oj in E. discriminate.
    + apply (f_equal (occurs "-")) in E.
      rewrite Strings.occurs_app, Oi, Oj in E. discriminate.
    + now apply Strings.str_of_int_inj.
Qed.

(** C1.  On photo records (non-negative integer popularity), when any two
    records of equal popularity have different local calendar dates, the
    assigned names are pairwise distinct; and two records with the same
    popularity and the same calendar date get the same name.  The names
    are those of the naming pass, which are the names of the items of a
    successful upload. *)
Theorem names_distinct_up_to_same_day (P : platform) files_info :
  Forall (photo_record P) files_info ->
  exists names,
    (forall w, assign_names P files_info w = (Ok names, w)) /\
    ((forall i j ri rj,
         i <> j ->
         nth_error files_info i = Some ri ->
         nth_error files_info j = Some rj ->
         likes ri = likes rj ->
         calendar_date P ri <> calendar_date P rj) ->
     NoDup names) /\
    (forall i j ri rj,
        i <> j ->
        nth_error files_info i = Some ri ->
        nth_error files_info j = Some rj ->
        likes ri = likes rj ->
        calendar_date P ri = calendar_date P rj ->
        exists name,
          nth_error names i = Some name /\ nth_error names j = Some name) /\
    (forall self dirname w m w',
        upload_files P self files_info dirname w = (Ok m, w') ->
        map i_name (m_items m) = names).
Proof.
  intros H. exists (map (spec_name P files_info) files_info).
  split; [now apply assign_names_photos|].
  split; [|split; [|intros; eapply upload_names; eauto]].
  - intros Hd. apply NoDup_nth_error. intros i j Hlt E.
    rewrite length_map in Hlt. rewrite !nth_error_map in E.
    destruct (nth_error files_info i) as [ri|] eqn:Hi.
    2:{ apply nth_error_None in Hi. lia. }
    destruct (nth_error files_info j) as [rj|] eqn:Hj; [|discriminate].
    destruct (Nat.eq_dec i j) as [|Ne]; [assumption|exfalso].
    inversion E as [E'].
    destruct (spec_name_collision P _ _ _ _ _ H Ne Hi Hj E') as (L & D).
    exact (Hd i j ri rj Ne Hi Hj L D).
  - intros i j ri rj _ Hi Hj L D. exists (spec_name P files_info ri).
    rewrite !nth_error_map, Hi, Hj. cbn [option_map]. split; [reflexivity|].
    unfold spec_name. now rewrite L, D.
Qed.

Lemma names_distinct_up_to_same_day_witness :
  exists names,
    (forall w, assign_names utc example_photos w = (Ok names, w)) /\
    NoDup names.
Proof.
  destruct (names_distinct_up_to_same_day utc example_photos
              example_photos_are_records) as (names & A & D & _).
  exists names. split; [exact A|]. apply D.
  intros [|[|[|i]]] [|[|[|j]]] ri rj Ne Hi Hj L; cbn in Hi, Hj;
    try congruence; try (destruct i; discriminate);
    try (destruct j; discriminate);
    inversion Hi; inversion Hj; subst; discriminate.
Defined.

(** C8, as stated, fails: the names come from [time.localtime], so two
    runs over the same records, one where local time is UTC and one where
    it is three hours ahead, assign different names. *)
Lemma names_depend_on_time_zone :
  fst (assign_names utc evening_photos example_world) =
    Ok ["5-01_05_2021"; "5-02_05_2021"] /\
  fst (assign_names moscow evening_photos example_world) =
    Ok ["5-02_05_2021"; "5-03_05_2021"] /\
  fst (assign_names utc evening_photos example_world) <>
  fst (assign_names moscow evening_photos example_world).
Proof.
  split; [reflexivity|]. split; [reflexivity|]. discriminate.
Qed.

(** C8, amended.  The naming pass does no I/O (it returns the world it
    was given) and, on photo records, its names depend on nothing but the
    records in their order and the offset of local time at their
    timestamps: two runs in any two worlds, on platforms with the same
    offsets there, assign the same names, also to the items they upload. *)
Theorem names_deterministic_given_time_zone (P1 P2 : platform) files_info :
  Forall (photo_record P1) files_info ->
  Forall (photo_record P2) files_info ->
  (forall r t, In r files_info -> date r = VInt t ->
               utc_offset P1 t = utc_offset P2 t) ->
  exists names,
    (forall w1, assign_names P1 files_info w1 = (Ok names, w1)) /\
    (forall w2, assign_names P2 files_info w2 = (Ok names, w2)) /\
    (forall self1 self2 dir1 dir2 w1 w2 m1 m2 w1' w2',
        upload_files P1 self1 files_info dir1 w1 = (Ok m1, w1') ->
        upload_files P2 self2 files_info dir2 w2 = (Ok m2, w2') ->
        map i_name (m_items m1) = names /\ map i_name (m_items m2) = names).
Proof.
  intros H1 H2 Hoff.
  assert (E : map (spec_name P2 files_info) files_info =
              map (spec_name P1 files_info) files_info).
  { apply map_ext_in. intros r Hin.
    rewrite Forall_forall in H1, H2.
    destruct (H1 r Hin) as (_ & (t1 & D1)). destruct (H2 r Hin) as (_ & (t2 & D2)).
    unfold spec_name. rewrite D1, D2.
    unfold calendar_date, localtime_at in D1, D2.
    destruct (date r) as [| | t | | |] eqn:Hd; try discriminate.
    destruct (negb (time_t_fits P1 t)); [discriminate|].
    destruct (negb (tm_fits P1 t)); [discriminate|].
    destruct (negb (time_t_fits P2 t)); [discriminate|].
    destruct (negb (tm_fits P2 t)); [discriminate|].
    rewrite (Hoff r t Hin Hd) in D1.
    assert (t1 = t2) by congruence. now subst. }
  exists (map (spec_name P1 files_info) files_info).
  split; [now apply assign_names_photos|]. split.
  - intros w2. rewrite <- E. now apply assign_names_photos.
  - intros self1 self2 dir1 dir2 w1 w2 m1 m2 w1' w2' U1 U2. split.
    + eapply upload_names; eauto.
    + rewrite <- E. eapply upload_names; eauto.
Qed.

Lemma names_deterministic_given_time_zone_witness :
  exists names,
    (forall w1, assign_names utc example_photos w1 = (Ok names, w1)) /\
    (forall w2, assign_names utc example_photos w2 = (Ok names, w2)).
Proof.
  destruct (names_deterministic_given_time_zone utc utc example_photos
              example_photos_are_records example_photos_are_records
              (fun _ _ _ _ => eq_refl)) as (names & A1 & A2 & _).
  exists names. split; [exact A1|exact A2].
Defined.

(** * Further properties of the code *)

(** ** What validation lets through, and how else it fails *)

Lemma status_outside code :
  ~ 400 <= code < 600 ->
  (400 <=? code) && (code <? 500) = false /\
  (500 <=? code) && (code <? 600) = false.
Proof.
  intros H. split; apply andb_false_iff.
  - destruct (Z.leb_spec 400 code); [right; apply Z.ltb_ge; lia|now left].
  - destruct (Z.leb_spec 500 code); [right; apply Z.ltb_ge; lia|now left].
Qed.

Lemma status_inside code :
  400 <= code < 600 ->
  (400 <=? code) && (code <? 500) = true \/
  (500 <=? code) && (code <? 600) = true.
Proof.
  intros H. destruct (Z_lt_dec code 500).
  - left. apply andb_true_iff. split; [apply Z.leb_le|apply Z.ltb_lt]; lia.
  - right. apply andb_true_iff. split; [apply Z.leb_le|apply Z.ltb_lt]; lia.
Qed.

Lemma response_processing_accepts (P : platform) resp kvs w :
  accepted resp kvs -> response_processing P resp w = (Ok tt, w).
Proof.
  intros (Hs & Hb & He). unfold response_processing.
  destruct (status_outside _ Hs) as (-> & ->).
  unfold bind, lift, response_json. rewrite Hb. cbn [dict_get_method].
  destruct He as [-> | ->]; reflexivity.
Qed.

(** Every way [response_processing] can end: it returns with the world as
    it was and the response accepted; or it prints one line and raises
    [SystemExit]; or it raises something else with the world as it was. *)
Lemma response_processing_outcome (P : platform) resp w r w' :
  response_processing P resp w = (r, w') ->
  (r = Ok tt /\ w' = w /\ exists kvs, accepted resp kvs) \/
  (r = Err (SystemExit None) /\
   exists line, w' = set_stdout (stdout w ++ [line]) w) \/
  (exists e, r = Err e /\ e <> SystemExit None /\ w' = w /\
             ~ 400 <= status_code resp < 600).
Proof.
  unfold response_processing, bind, print, exit, raise, lift, ret,
    response_json.
  destruct (Z_le_dec 400 (status_code resp)) as [Lo|Lo];
    [destruct (Z_lt_dec (status_code resp) 600) as [Hi|Hi]|].
  { destruct (status_inside (status_code resp) (conj Lo Hi)) as [E|E].
    - rewrite E. cbv beta iota; intros [= <- <-]. right; left. eauto.
    - destruct ((400 <=? status_code resp) && (status_code resp <? 500));
        [cbv beta iota; intros [= <- <-]; right; left; eauto|].
      rewrite E. cbv beta iota; intros [= <- <-]. right; left. eauto. }
  all: assert (Hs : ~ 400 <= status_code resp < 600) by lia;
    destruct (status_outside _ Hs) as (-> & ->);
    (destruct (body resp) as [v|] eqn:Hb;
     [|cbv beta iota; intros [= <- <-]; right; right; exists JSONDecodeError;
       repeat split; auto; discriminate]);
    (destruct v as [| | | | |kvs]; cbn [dict_get_method];
     try (cbv beta iota; intros [= <- <-]; right; right; exists AttributeError;
          repeat split; auto; discriminate));
    (destruct (dict_get "error" kvs) as [e|] eqn:He;
     [|cbv beta iota; intros [= <- <-]; left; repeat split; exists kvs;
       repeat split; auto]);
    (destruct e as [| | | | |d]; cbn [getitem]; rewrite ?He; cbn [getitem];
     try (cbv beta iota; intros [= <- <-]; right; right; exists TypeError;
          repeat split; auto; discriminate));
    [cbv beta iota; intros [= <- <-]; left; repeat split; exists kvs; repeat split; auto
    |destruct (dict_get "error_msg" d);
     [cbv beta iota; intros [= <- <-]; right; left; eauto
     |cbv beta iota; intros [= <- <-]; right; right; exists KeyError;
      repeat split; auto; discriminate]].
Qed.

(** X1.  [response_processing] returns normally exactly for the responses
    whose status is outside 400-599 and whose body is a JSON object with no
    [error] key or a null [error]; it then prints nothing and changes
    nothing. *)
Theorem validation_accepts_iff (P : platform) resp w w' :
  response_processing P resp w = (Ok tt, w') <->
  (exists kvs, accepted resp kvs) /\ w' = w.
Proof.
  split.
  - intros E. apply response_processing_outcome in E
      as [(_ & -> & A)|[(B & _)|(e & B & _)]]; [auto|discriminate ..].
  - intros ((kvs & A) & ->). now apply (response_processing_accepts P resp kvs).
Qed.

(** X2.  With a status outside 400-599, a body that is JSON but unusable
    makes [response_processing] raise without printing: [AttributeError]
    when the body is not an object, [TypeError] when its [error] is neither
    null nor an object, [KeyError] when the [error] object has no
    [error_msg]. *)
Theorem validation_unusable_body (P : platform) resp w :
  ~ 400 <= status_code resp < 600 ->
  (forall v, body resp = Some v -> (forall kvs, v <> VDict kvs) ->
             response_processing P resp w = (Err AttributeError, w)) /\
  (forall kvs e,
      body resp = Some (VDict kvs) -> dict_get "error" kvs = Some e ->
      e <> VNone -> (forall d, e <> VDict d) ->
      response_processing P resp w = (Err TypeError, w)) /\
  (forall kvs d,
      body resp = Some (VDict kvs) ->
      dict_get "error" kvs = Some (VDict d) ->
      dict_get "error_msg" d = None ->
      response_processing P resp w = (Err KeyError, w)).
Proof.
  intros Hs. unfold response_processing.
  destruct (status_outside _ Hs) as (-> & ->).
  unfold bind, lift, response_json. split; [|split].
  - intros v -> Hv. destruct v; try reflexivity. now destruct (Hv kvs).
  - intros kvs e -> He Hn Hd. cbn [dict_get_method]. rewrite He.
    destruct e as [| | | | |d]; [congruence| | | | |now destruct (Hd d)];
      cbn [getitem]; rewrite He; reflexivity.
  - intros kvs d -> He Hm. cbn [dict_get_method getitem]. rewrite He.
    cbn [getitem]. now rewrite Hm.
Qed.

Lemma validation_unusable_body_witness :
  let w := scripted [] [] in
  response_processing utc (mkResponse 200 (Some (VList []))) w =
    (Err AttributeError, w) /\
  response_processing utc
    (mkResponse 200 (Some (VDict [("error", VStr "DiskNotFoundError")]))) w =
    (Err TypeError, w) /\
  response_processing utc
    (mkResponse 200 (Some (VDict [("error", VDict [("error_code", VInt 5)])]))) w =
    (Err KeyError, w).
Proof.
  intros w. split; [|split].
  - apply (proj1 (validation_unusable_body utc
                    (mkResponse 200 (Some (VList []))) w
                    ltac:(cbn; lia)) (VList [])); [reflexivity|discriminate].
  - apply (proj1 (proj2 (validation_unusable_body utc
                    (mkResponse 200 (Some (VDict [("error", VStr "DiskNotFoundError")]))) w
                    ltac:(cbn; lia)))
             [("error", VStr "DiskNotFoundError")] (VStr "DiskNotFoundError"));
      [reflexivity|reflexivity|discriminate|discriminate].
  - apply (proj2 (proj2 (validation_unusable_body utc
                    (mkResponse 200 (Some (VDict [("error", VDict [("error_code", VInt 5)])]))) w
                    ltac:(cbn; lia)))
             [("error", VDict [("error_code", VInt 5)])] [("error_code", VInt 5)]);
      reflexivity.
Defined.

Lemma validation_accepts_iff_witness :
  let resp := mkResponse 201 (Some (VDict [("href", VStr "h"); ("error", VNone)])) in
  response_processing utc resp example_world = (Ok tt, example_world).
Proof.
  intros resp.
  apply (proj2 (validation_accepts_iff utc resp example_world example_world)).
  split; [|reflexivity].
  exists [("href", VStr "h"); ("error", VNone)].
  split; [cbn; lia|]. split; [reflexivity|]. right. reflexivity.
Defined.

(** ** The album fetch *)

Lemma silent_after_request (P : platform) resp :
  silent (response_processing P resp ;;;
          response_json <- lift (response_json resp) ;;
          resp <- lift (getitem response_json "response") ;;
          items <- lift (getitem resp "items") ;;
          items <- lift (iterate items) ;;
          for_each (fun item => lift (photo_info item)) items).
Proof.
  apply silent_bind; [apply silent_response_processing|]. intros _.
  repeat (apply silent_bind; auto with silent; intros).
  apply silent_for_each; auto with silent.
Qed.

(** X3.  Every run of [get_photos_info], whatever its outcome, sends
    exactly one request: a GET of [photos.get] whose parameters are the
    token, the owner id, [extended=1], the version and the album id, in
    this order.  There is no second page and no retry. *)
Theorem get_photos_info_sends_one_request
    (P : platform) vk_token user_id version album_id w r w' :
  get_photos_info P (VKClient_init vk_token user_id version) album_id w
    = (r, w') ->
  sent w' =
  (sent w ++ [photos_get_request vk_token user_id version album_id])%list.
Proof.
  unfold get_photos_info. intros E.
  unfold bind at 1 in E. unfold http in E.
  destruct (network w (List.length (sent w))) as [resp|e].
  - destruct (silent_after_request P resp _ _ _ E) as (S & _). rewrite S.
    reflexivity.
  - inversion E; subst. reflexivity.
Qed.

Lemma get_photos_info_sends_one_request_witness :
  sent (snd (get_photos_info utc (VKClient_init "token" "1" "5.199") "wall"
               (scripted [] []))) =
  [photos_get_request "token" "1" "5.199" "wall"].
Proof.
  apply (get_photos_info_sends_one_request utc "token" "1" "5.199" "wall"
           (scripted [] [])
           (fst (get_photos_info utc (VKClient_init "token" "1" "5.199")
                   "wall" (scripted [] [])))).
  now destruct (get_photos_info utc _ _ _).
Defined.

Lemma for_each_lift_ok {A B : Type} (f : A -> result B) l ys w :
  Forall2 (fun x y => f x = Ok y) l ys ->
  for_each (fun x => lift (f x)) l w = (Ok ys, w).
Proof.
  induction 1 as [|x y l ys H _ IH]; cbn [for_each]; [reflexivity|].
  unfold bind, lift in *. now rewrite H, IH.
Qed.

Lemma for_each_lift_err {A B : Type} (f : A -> result B) l : forall k x e w,
  nth_error l k = Some x -> f x = Err e ->
  (forall j xj, (j < k)%nat -> nth_error l j = Some xj ->
                exists y, f xj = Ok y) ->
  for_each (fun x => lift (f x)) l w = (Err e, w).
Proof.
  induction l as [|x0 l IH]; intros [|k] x e w Hk He Hj; cbn in Hk;
    try discriminate; cbn [for_each]; unfold bind, lift.
  - inversion Hk; subst. now rewrite He.
  - destruct (Hj 0%nat x0) as (y & ->); [lia|reflexivity|].
    assert (E : for_each (fun x => lift (f x)) l w = (Err e, w)).
    { apply (IH k x); auto. intros j xj Hlt Hn. apply (Hj (S j)); [lia|exact Hn]. }
    unfold lift in E. now rewrite E.
Qed.

Lemma get_photos_info_accepted (P : platform) self album_id w resp kvs :
  network w (List.length (sent w)) = Ok resp ->
  accepted resp kvs ->
  get_photos_info P self album_id w =
  (resp <- lift (getitem (VDict kvs) "response") ;;
   items <- lift (getitem resp "items") ;;
   items <- lift (iterate items) ;;
   for_each (fun item => lift (photo_info item)) items)
    (set_sent
       (sent w ++
        [mkRequest GET (VK_BASE_URL ++ "/photos.get")
                   (dict_merge (vk_params self) [("album_id", VStr album_id)])
                   []]) w).
Proof.
  intros N A. pose proof A as (_ & Hb & _).
  unfold get_photos_info, bind at 1, http. rewrite N.
  unfold bind at 1. rewrite (response_processing_accepts P resp kvs _ A).
  unfold bind at 1, lift at 1, response_json. now rewrite Hb.
Qed.

(** X4.  When the response to [get_photos_info] is accepted, its result is
    read off the body: [KeyError] without a [response] key, [TypeError]
    when [items] is null; and with a list of items, the records of all the
    items in their order when each item has the keys lines 69-71 read (so
    the empty list for an empty album), otherwise the exception of the
    first item that lacks one, with no record returned. *)
Theorem get_photos_info_result (P : platform) self album_id w resp kvs :
  network w (List.length (sent w)) = Ok resp ->
  accepted resp kvs ->
  (dict_get "response" kvs = None ->
   fst (get_photos_info P self album_id w) = Err KeyError) /\
  (forall rkvs,
      dict_get "response" kvs = Some (VDict rkvs) ->
      (dict_get "items" rkvs = Some VNone ->
       fst (get_photos_info P self album_id w) = Err TypeError) /\
      (forall items,
          dict_get "items" rkvs = Some (VList items) ->
          (forall infos,
              Forall2 (fun item r => photo_info item = Ok r) items infos ->
              fst (get_photos_info P self album_id w) = Ok infos) /\
          (forall k item e,
              nth_error items k = Some item ->
              photo_info item = Err e ->
              (forall j itemj, (j < k)%nat -> nth_error items j = Some itemj ->
                               exists r, photo_info itemj = Ok r) ->
              fst (get_photos_info P self album_id w) = Err e))).
Proof.
  intros N A. rewrite (get_photos_info_accepted P self album_id w resp kvs N A).
  unfold bind, lift. cbn [getitem]. split.
  - intros ->. reflexivity.
  - intros rkvs ->. cbn [getitem]. split.
    + intros ->. reflexivity.
    + intros items ->. cbn [iterate]. split.
      * intros infos F.
        pose proof (for_each_lift_ok photo_info items infos) as E.
        unfold lift in E. now rewrite E.
      * intros k item e Hk He Hj.
        pose proof (for_each_lift_err photo_info items k item e) as E.
        unfold lift in E. now rewrite E.
Qed.

Lemma get_photos_info_result_witness :
  let photo :=
    VDict [("id", VInt 1); ("date", VInt 1619827200);
           ("likes", VDict [("count", VInt 5); ("user_likes", VInt 0)]);
           ("orig_photo", VDict [("height", VInt 600); ("url", VStr "https://vk/a.jpg");
                                 ("width", VInt 800)])] in
  let old_photo := VDict [("id", VInt 2); ("date", VInt 1619827200);
                          ("likes", VDict [("count", VInt 7)])] in
  let answer items :=
    scripted [Ok (mkResponse 200
                    (Some (VDict [("response",
                                   VDict [("count", VInt 2); ("items", VList items)])])))]
             [] in
  let self := VKClient_init "token" "1" "5.199" in
  fst (get_photos_info utc self "wall" (answer [photo])) =
    Ok [mkInfo (VInt 5) (VStr "https://vk/a.jpg") (VInt 1619827200)
               (VInt 600) (VInt 800)] /\
  fst (get_photos_info utc self "wall" (answer [])) = Ok [] /\
  fst (get_photos_info utc self "wall" (answer [photo; old_photo])) =
    Err KeyError.
Proof.
  intros photo old_photo answer self.
  assert (A : forall items,
             accepted (mkResponse 200
                         (Some (VDict [("response",
                                        VDict [("count", VInt 2);
                                               ("items", VList items)])])))
                      [("response", VDict [("count", VInt 2);
                                           ("items", VList items)])]).
  { intros items. split; [cbn; lia|]. split; [reflexivity|]. now left. }
  split; [|split].
  - apply (proj1 (proj2 (proj2 (get_photos_info_result utc self "wall"
              (answer [photo]) _ _ eq_refl (A [photo])) _ eq_refl) _ eq_refl)).
    repeat constructor.
  - apply (proj1 (proj2 (proj2 (get_photos_info_result utc self "wall"
              (answer []) _ _ eq_refl (A [])) _ eq_refl) _ eq_refl)).
    constructor.
  - apply (proj2 (proj2 (proj2 (get_photos_info_result utc self "wall"
              (answer [photo; old_photo]) _ _ eq_refl (A [photo; old_photo]))
              _ eq_refl) _ eq_refl) 1%nat old_photo KeyError);
      [reflexivity|reflexivity|].
    intros [|j] itemj Hj Hn; [|lia]. inversion Hn; subst. eexists. reflexivity.
Defined.

(** ** Failures of the network *)

Lemma ends_silent {A : Type} (m : M A) : silent m -> ends_at_network_failure m.
Proof.
  intros S w r w' E. destruct (S _ _ _ E) as (Hs & Hn & _).
  split; [assumption|]. rewrite Hs. split; [lia|]. intros n e Hlt. lia.
Qed.

Lemma ends_bind {A B : Type} (m : M A) (f : A -> M B) :
  ends_at_network_failure m -> (forall a, ends_at_network_failure (f a)) ->
  ends_at_network_failure (bind m f).
Proof.
  intros Hm Hf w r w' E.
  apply bind_cases in E as [(e & E & ->)|(a & w1 & E1 & E2)].
  - destruct (Hm _ _ _ E) as (N1 & L1 & T1).
    split; [assumption|]. split; [assumption|].
    intros n e0 Hn Hr. destruct (T1 n e0 Hn Hr) as (Ee & Hl).
    inversion Ee; subst. auto.
  - destruct (Hm _ _ _ E1) as (N1 & L1 & T1).
    destruct (Hf a _ _ _ E2) as (N2 & L2 & T2).
    split; [congruence|]. split; [lia|].
    intros n e Hn Hr.
    destruct (Nat.lt_ge_cases n (List.length (sent w1))) as [Lt|Ge].
    + destruct (T1 n e) as (Bad & _); auto; try lia. discriminate.
    + apply (T2 n e); auto; try lia. now rewrite N1.
Qed.

Lemma ends_request {A : Type} rq (k : response -> M A) :
  (forall resp, ends_at_network_failure (k resp)) ->
  ends_at_network_failure (bind (http rq) k).
Proof.
  intros Hk w r w' E. unfold bind, http in E.
  set (w1 := set_sent (sent w ++ [rq]) w) in *.
  assert (L1 : List.length (sent w1) = S (List.length (sent w)))
    by (cbn; rewrite length_app; cbn; lia).
  destruct (network w (List.length (sent w))) as [resp0|e0] eqn:N.
  - destruct (Hk resp0 _ _ _ E) as (N2 & L2 & T2).
    split; [exact N2|]. split; [lia|].
    intros n e Hn Hr.
    destruct (Nat.eq_dec n (List.length (sent w))) as [->|Ne]; [congruence|].
    apply (T2 n e); auto. lia.
  - inversion E; subst. split; [reflexivity|]. split; [lia|].
    intros n e Hn Hr. assert (n = List.length (sent w)) by lia. subst n.
    rewrite N in Hr. inversion Hr; subst. auto.
Qed.

Lemma ends_for_each {A B : Type} (f : A -> M B) l :
  (forall x, ends_at_network_failure (f x)) ->
  ends_at_network_failure (for_each f l).
Proof.
  intros Hf. induction l as [|x l IH]; cbn [for_each].
  - apply ends_silent; auto with silent.
  - apply ends_bind; auto. intros y. apply ends_bind; auto.
    intros ys. apply ends_silent; auto with silent.
Qed.

Lemma ends_get_photos_info (P : platform) self album_id :
  ends_at_network_failure (get_photos_info P self album_id).
Proof.
  unfold get_photos_info. apply ends_request. intros resp.
  apply ends_silent, silent_after_request.
Qed.

Lemma ends_upload_files (P : platform) self files_info dirname :
  ends_at_network_failure (upload_files P self files_info dirname).
Proof.
  unfold upload_files.
  apply ends_bind; [apply ends_silent; auto with silent|]. intros dups.
  apply ends_bind.
  { unfold create_dir. apply ends_request. intros resp. apply ends_silent.
    apply silent_bind; auto using silent_response_processing with silent. }
  intros dir.
  apply ends_bind; [apply ends_silent; auto with silent|]. intros href.
  apply ends_bind; [apply ends_silent; auto with silent|]. intros now.
  apply ends_bind; [|intros; apply ends_silent; auto with silent].
  apply ends_for_each. intros r. unfold upload_one.
  apply ends_bind; [apply ends_silent, silent_filename|]. intros name.
  apply ends_request. intros resp. apply ends_silent.
  apply silent_bind; [apply silent_response_processing|]. intros _.
  repeat (apply silent_bind; auto with silent; intros).
Qed.

(** X5.  An exception of [requests] (no connection, timeout) is never
    caught: in [get_photos_info], in [upload_files] at the folder request
    or at any import, and so in the main module from the photo list on, the
    call ends in that very exception, the failed request is the last one
    sent, the requests before it stay sent, and no file is written. *)
Theorem network_failure_ends_the_call (P : platform) n e :
  (forall self album_id w r w',
      get_photos_info P self album_id w = (r, w') ->
      (List.length (sent w) <= n < List.length (sent w'))%nat ->
      network w n = Err e ->
      r = Err e /\ List.length (sent w') = S n) /\
  (forall self files_info dirname w r w',
      upload_files P self files_info dirname w = (r, w') ->
      (List.length (sent w) <= n < List.length (sent w'))%nat ->
      network w n = Err e ->
      r = Err e /\ List.length (sent w') = S n /\ files w' = files w) /\
  (forall photos w r w',
      main_backup P photos w = (r, w') ->
      (List.length (sent w) <= n < List.length (sent w'))%nat ->
      network w n = Err e ->
      r = Err e /\ List.length (sent w') = S n /\ files w' = files w).
Proof.
  split; [|split].
  - intros self album_id w r w' E Hn Hr.
    destruct (ends_get_photos_info P _ _ _ _ _ E) as (_ & _ & T). now apply T.
  - intros self files_info dirname w r w' E Hn Hr.
    destruct (ends_upload_files P _ _ _ _ _ _ E) as (_ & _ & T).
    destruct (stops_upload_files P _ _ _ _ _ _ E) as (_ & F & _).
    destruct (T n e Hn Hr). auto.
  - intros photos w r w' E Hn Hr.
    assert (U : ends_at_network_failure (main_upload P photos)).
    { unfold main_upload.
      do 4 (apply ends_bind; [apply ends_silent; auto with silent|]; intros).
      apply ends_upload_files. }
    unfold main_backup in E.
    apply bind_cases in E as [(e0 & E & ->)|(m & w1 & E1 & E2)].
    + destruct (U _ _ _ E) as (_ & _ & T).
      destruct (stops_main_upload P _ _ _ _ E) as (_ & F & _).
      destruct (T n e Hn Hr) as (Ee & L). inversion Ee; subst. auto.
    + destruct (U _ _ _ E1) as (_ & _ & T).
      assert (S1 : sent w' = sent w1).
      { unfold bind, dump_to_file, print in E2.
        destruct (writable w1); inversion E2; subst; reflexivity. }
      rewrite S1 in Hn. destruct (T n e Hn Hr) as (Bad & _). discriminate.
Qed.

Lemma network_failure_ends_the_call_witness :
  let w := scripted [stored "disk/backup"; stored "op/1"] ["token"; "backup"] in
  fst (main_backup utc example_photos w) = Err RequestException /\
  List.length (sent (snd (main_backup utc example_photos w))) = 3%nat /\
  files (snd (main_backup utc example_photos w)) = [].
Proof.
  intros w.
  apply (proj2 (proj2 (network_failure_ends_the_call utc 2 RequestException))
           example_photos w).
  - now destruct (main_backup utc example_photos w).
  - vm_compute. lia.
  - reflexivity.
Defined.

(** ** What reaches the console *)













(** ** An upload that the storage accepts *)

Lemma upload_one_accepted (P : platform) self dirname dups r name resp kvs href w :
  (forall w0, filename P dups r w0 = (Ok name, w0)) ->
  network w (List.length (sent w)) = Ok resp ->
  accepted resp kvs ->
  dict_get "href" kvs = Some href ->
  upload_one P self dirname (DISK_BASE_URL ++ "/upload") dups r w =
  (Ok (mkItem name href (height r) (width r)),
   set_sent (sent w ++ [import_request self dirname r name]) w).
Proof.
  intros F N A H. pose proof A as (_ & Hb & _).
  unfold upload_one, bind at 1. rewrite F.
  unfold bind at 1, http. rewrite N.
  unfold bind at 1. rewrite (response_processing_accepts P resp kvs _ A).
  unfold bind, lift, response_json. rewrite Hb. cbn [getitem]. rewrite H.
  reflexivity.
Qed.

Lemma upload_loop_accepted (P : platform) self dirname dups
    (f : info -> string) l : forall w,
  (forall r w0, In r l -> filename P dups r w0 = (Ok (f r), w0)) ->
  (forall k, (k < List.length l)%nat ->
             exists href, answers_href w (List.length (sent w) + k) href) ->
  exists items,
    for_each (upload_one P self dirname (DISK_BASE_URL ++ "/upload") dups) l w =
    (Ok items,
     set_sent (sent w ++ import_requests self dirname l items) w) /\
    map i_name items = map f l.
Proof.
  induction l as [|r l IH]; intros w F H.
  - exists []. cbn. rewrite app_nil_r. split; [|reflexivity].
    now destruct w.
  - destruct (H 0%nat) as (href & resp & kvs & N & A & Hh); [cbn; lia|].
    rewrite Nat.add_0_r in N.
    pose proof (upload_one_accepted P self dirname dups r (f r) resp kvs href w
                  (fun w0 => F r w0 (or_introl eq_refl)) N A Hh) as E1.
    set (w1 := set_sent (sent w ++ [import_request self dirname r (f r)]) w) in *.
    destruct (IH w1) as (items & E2 & Hn).
    { intros r' w0 Hin. apply F. now right. }
    { intros k Hk. destruct (H (S k)) as (h & resp' & kvs' & N' & A' & Hh');
        [cbn; lia|].
      exists h, resp', kvs'. split; [|auto].
      subst w1. cbn [network sent set_sent]. rewrite length_app. cbn [List.length].
      now replace (List.length (sent w) + 1 + k)%nat
        with (List.length (sent w) + S k)%nat by lia. }
    exists (mkItem (f r) href (height r) (width r) :: items).
    cbn [for_each]. unfold bind at 1. rewrite E1.
    unfold bind at 1. rewrite E2. cbn [ret map i_name import_requests].
    split; [|now rewrite Hn].
    unfold ret. f_equal. subst w1. unfold set_sent. cbn. f_equal.
    now rewrite <- app_assoc.
Qed.

(** On photo records, with a storage that accepts the folder request and
    every import and answers each with an [href], [upload_files] returns
    its manifest; the world it leaves differs by the requests sent and one
    reading of the clock. *)
Lemma upload_files_accepted (P : platform) self files_info dirname w :
  Forall (photo_record P) files_info ->
  (forall k, (k <= List.length files_info)%nat ->
             exists href, answers_href w (List.length (sent w) + k) href) ->
  exists href items,
    answers_href w (List.length (sent w)) href /\
    map i_name items = map (spec_name P files_info) files_info /\
    upload_files P self files_info dirname w =
    (Ok (mkManifest href dirname (clock w (ticks w))
                    (Z.of_nat (List.length files_info)) items),
     set_sent
       (sent w ++ folder_request self dirname
          :: import_requests self dirname files_info items)
       (set_ticks (S (ticks w)) w)).
Proof.
  intros Hp H.
  destruct (H 0%nat) as (href & resp & kvs & N & A & Hh); [lia|].
  rewrite Nat.add_0_r in N. pose proof A as (_ & Hb & _).
  set (w1 := set_ticks (S (ticks w))
               (set_sent (sent w ++ [folder_request self dirname]) w)).
  destruct (upload_loop_accepted P self dirname
              (map (fun name =>
                      if count name (map likes files_info) >? 1
                      then name else VNone) (map likes files_info))
              (spec_name P files_info) files_info w1)
    as (items & E & Hn).
  { intros r w0 Hin. now apply filename_photo. }
  { intros k Hk. destruct (H (S k)) as (h & resp' & kvs' & N' & A' & Hh'); [lia|].
    exists h, resp', kvs'. split; [|auto].
    subst w1. cbn [network sent set_sent set_ticks]. rewrite length_app.
    cbn [List.length].
    now replace (List.length (sent w) + 1 + k)%nat
      with (List.length (sent w) + S k)%nat by lia. }
  exists href, items. split; [exists resp, kvs; auto|].
  split; [exact Hn|].
  unfold upload_files, bind at 1, lift at 1.
  rewrite duplicate_names_ints by now apply (photo_records_ints P).
  unfold bind at 1, create_dir, bind at 1, http. rewrite N.
  unfold bind at 1. rewrite (response_processing_accepts P resp kvs _ A).
  unfold lift at 1, response_json. rewrite Hb.
  unfold bind at 1, lift at 1. cbn [getitem]. rewrite Hh.
  unfold bind at 1, time_time. fold w1.
  change (set_ticks (S (ticks (set_sent (sent w ++ [folder_request self dirname]) w)))
            (set_sent (sent w ++ [folder_request self dirname]) w)) with w1.
  unfold bind at 1.
  change (set_sent (sent w ++
            [mkRequest PUT DISK_BASE_URL [("path", VStr dirname)] (disk_headers self)]) w)
    with (set_sent (sent w ++ [folder_request self dirname]) w).
  cbn [clock ticks set_sent]. fold w1. rewrite E. unfold ret. f_equal.
  subst w1. unfold set_sent, set_ticks. cbn. f_equal. now rewrite <- app_assoc.
Qed.

(** X7.  [upload_files] succeeds whenever the records are photo records and
    the storage accepts the folder request and each of the N imports with
    an [href] in the body.  The manifest then has [dirname] as its name,
    the folder's [href], the clock reading taken after the folder request
    as its date, N as its count and the assigned names in input order; the
    run prints nothing and writes no file. *)
Theorem upload_succeeds_on_accepting_storage
    (P : platform) self files_info dirname w :
  Forall (photo_record P) files_info ->
  (forall k, (k <= List.length files_info)%nat ->
             exists href, answers_href w (List.length (sent w) + k) href) ->
  exists m w',
    upload_files P self files_info dirname w = (Ok m, w') /\
    m_name m = dirname /\
    answers_href w (List.length (sent w)) (m_href m) /\
    m_date m = clock w (ticks w) /\
    m_count m = Z.of_nat (List.length files_info) /\
    map i_name (m_items m) = map (spec_name P files_info) files_info /\
    stdout w' = stdout w /\ files w' = files w /\ ticks w' = S (ticks w).
Proof.
  intros Hp H.
  destruct (upload_files_accepted P self files_info dirname w Hp H)
    as (href & items & A & Hn & E).
  eexists _, _. split; [exact E|]. cbn. repeat split; auto.
Qed.

Lemma example_world_answers k :
  (k <= 3)%nat ->
  exists href,
    answers_href example_world (List.length (sent example_world) + k) href.
Proof.
  intros Hk.
  assert (A : forall h, accepted (mkResponse 201 (Some (VDict [("href", VStr h)])))
                                 [("href", VStr h)]).
  { intros h. split; [cbn; lia|]. split; [reflexivity|]. now left. }
  destruct k as [|[|[|[|k]]]]; [| | | |lia];
    eexists _, _, _; (split; [reflexivity|]); (split; [apply A|reflexivity]).
Defined.

Lemma upload_succeeds_on_accepting_storage_witness :
  exists m w',
    upload_files utc (DiskClient_init "disk-token") example_photos "backup"
                 example_world = (Ok m, w') /\
    m_name m = "backup" /\ m_count m = 3 /\
    map i_name (m_items m) = ["5-01_05_2021"; "5-02_05_2021"; "7"].
Proof.
  destruct (upload_succeeds_on_accepting_storage utc
              (DiskClient_init "disk-token") example_photos "backup"
              example_world example_photos_are_records example_world_answers)
    as (m & w' & E & Hn & _ & _ & Hc & Hi & _).
  exists m, w'. repeat split; auto.
Defined.

(** ** When the timestamp is read *)

(** X8.  Line 132 looks at [date] only for a record whose likes occur more
    than once.  Among records whose likes are ints, a record with a count
    that occurs once is named by that count whatever its [date] holds; a
    record with a repeated count fails with [TypeError] when its [date] is a
    string and with [OverflowError] when it is an int outside the
    platform's [time_t]. *)
Theorem date_is_read_only_on_collision (P : platform) files_info r p :
  all_ints (map likes files_info) ->
  In r files_info ->
  likes r = VInt p ->
  exists dups,
    duplicate_names (map likes files_info) = Ok dups /\
    (count (VInt p) (map likes files_info) = 1 ->
     forall w, filename P dups r w = (Ok (str_of_int p), w)) /\
    (count (VInt p) (map likes files_info) > 1 ->
     (forall s, date r = VStr s ->
                forall w, filename P dups r w = (Err TypeError, w)) /\
     (forall t, date r = VInt t -> time_t_fits P t = false ->
                forall w, filename P dups r w = (Err OverflowError, w))).
Proof.
  intros Hi Hin Hp. eexists. split; [now apply duplicate_names_ints|].
  assert (C : set_contains
                (map (fun name =>
                        if count name (map likes files_info) >? 1
                        then name else VNone) (map likes files_info))
                (likes r) = Ok (count (VInt p) (map likes files_info) >? 1)).
  { rewrite Hp. apply set_contains_ints; auto. rewrite <- Hp. now apply in_map. }
  split.
  - intros E w. unfold filename, bind, lift. rewrite C, E, Hp. reflexivity.
  - intros E.
    assert (G : (count (VInt p) (map likes files_info) >? 1) = true)
      by (apply Z.gtb_lt; lia).
    split.
    + intros s Hd w. unfold filename, bind, lift. rewrite C, G, Hd. reflexivity.
    + intros t Hd Hf w. unfold filename, bind, lift. rewrite C, G, Hd.
      cbn [localtime]. unfold lift, localtime_at. rewrite Hf. reflexivity.
Qed.

Lemma date_is_read_only_on_collision_witness :
  let lone := mkInfo (VInt 7) (VStr "https://vk/c.jpg") (VStr "yesterday")
                     (VInt 480) (VInt 640) in
  let twin := mkInfo (VInt 5) (VStr "https://vk/a.jpg") (VStr "yesterday")
                     (VInt 600) (VInt 800) in
  exists dups,
    duplicate_names (map likes [twin; lone; twin]) = Ok dups /\
    filename utc dups lone example_world = (Ok "7", example_world) /\
    filename utc dups twin example_world = (Err TypeError, example_world).
Proof.
  intros lone twin.
  assert (I : all_ints (map likes [twin; lone; twin]))
    by (repeat constructor; eexists; reflexivity).
  destruct (date_is_read_only_on_collision utc [twin; lone; twin] lone 7 I
              (or_intror (or_introl eq_refl)) eq_refl) as (dups & D & U & _).
  destruct (date_is_read_only_on_collision utc [twin; lone; twin] twin 5 I
              (or_introl eq_refl) eq_refl) as (dups' & D' & _ & V).
  exists dups. split; [exact D|]. split.
  - apply U. reflexivity.
  - assert (dups' = dups) by congruence. subst dups'.
    apply (proj1 (V ltac:(reflexivity)) "yesterday"). reflexivity.
Defined.

(** ** The requests of any run of the upload *)

Lemma upload_one_sent (P : platform) self dirname dups r w res w' :
  upload_one P self dirname (DISK_BASE_URL ++ "/upload") dups r w = (res, w') ->
  (sent w' = sent w /\ exists e, res = Err e) \/
  exists name, sent w' = (sent w ++ [import_request self dirname r name])%list.
Proof.
  unfold upload_one. intros E.
  apply bind_cases in E as [(e & E & ->)|(name & w0 & E0 & E)].
  - left. destruct (silent_filename P _ _ _ _ _ E) as (S0 & _). eauto.
  - right. exists name.
    destruct (silent_filename P _ _ _ _ _ E0) as (S0 & _).
    unfold bind at 1 in E. unfold http in E.
    destruct (network w0 (List.length (sent w0))) as [resp|e].
    + assert (S : silent (response_processing P resp ;;;
                          response_json <- lift (response_json resp) ;;
                          href <- lift (getitem response_json "href") ;;
                          ret (mkItem name href (height r) (width r)))).
      { apply silent_bind; [apply silent_response_processing|]. intros _.
        repeat (apply silent_bind; auto with silent; intros). }
      destruct (S _ _ _ E) as (S1 & _). rewrite S1. cbn. now rewrite S0.
    + inversion E; subst. cbn. now rewrite S0.
Qed.

Lemma upload_loop_sent (P : platform) self dirname dups l : forall w res w',
  for_each (upload_one P self dirname (DISK_BASE_URL ++ "/upload") dups) l w
    = (res, w') ->
  exists names,
    (List.length names <= List.length l)%nat /\
    sent w' = (sent w ++ named_imports self dirname l names)%list /\
    (forall items, res = Ok items -> List.length names = List.length l).
Proof.
  induction l as [|r l IH]; intros w res w' E; cbn [for_each] in E.
  - inversion E; subst. exists []. cbn. rewrite app_nil_r. auto.
  - apply bind_cases in E as [(e & E & ->)|(it & w1 & E1 & E)].
    + apply upload_one_sent in E as [(S & _)|(name & S)].
      * exists []. cbn. rewrite app_nil_r. repeat split; auto; try lia.
        intros; discriminate.
      * exists [name]. cbn. repeat split; auto; try lia.
        { now destruct l. }
        intros; discriminate.
    + apply upload_one_sent in E1 as [(_ & e & Bad)|(name & S1)]; [discriminate|].
      apply bind_cases in E as [(e & E & ->)|(its & w2 & E2 & E)].
      * apply IH in E as (names & L & S & _).
        exists (name :: names). cbn. split; [lia|]. split.
        { rewrite S, S1, <- app_assoc. reflexivity. }
        intros; discriminate.
      * inversion E; subst. apply IH in E2 as (names & L & S & F).
        exists (name :: names). cbn. split; [lia|]. split.
        { rewrite S, S1, <- app_assoc. reflexivity. }
        intros items _. now rewrite (F its eq_refl).
Qed.

Lemma upload_files_sent (P : platform) self files_info dirname w r w' :
  upload_files P self files_info dirname w = (r, w') ->
  (sent w' = sent w /\ exists e, r = Err e) \/
  exists names,
    (List.length names <= List.length files_info)%nat /\
    sent w' = (sent w ++ folder_request self dirname
                 :: named_imports self dirname files_info names)%list /\
    (forall m, r = Ok m -> List.length names = List.length files_info).
Proof.
  unfold upload_files. intros E.
  apply bind_cases in E as [(e & E & ->)|(dups & w0 & E0 & E)].
  { left. apply lift_inv in E as [_ ->]. eauto. }
  apply lift_inv in E0 as [_ ->]. right.
  assert (Sd : forall res w1, create_dir P self dirname w = (res, w1) ->
                 sent w1 = (sent w ++ [folder_request self dirname])%list).
  { intros res w1 Ec. unfold create_dir in Ec.
    unfold bind at 1 in Ec. unfold http in Ec.
    destruct (network w (List.length (sent w))) as [resp|e].
    - assert (S : silent (response_processing P resp ;;;
                          lift (response_json resp))).
      { apply silent_bind; auto using silent_response_processing with silent. }
      destruct (S _ _ _ Ec) as (S1 & _). now rewrite S1.
    - now inversion Ec. }
  apply bind_cases in E as [(e & E & ->)|(dir & w1 & E1 & E)].
  { exists []. cbn. rewrite (Sd _ _ E). repeat split; auto; try lia.
    - now destruct files_info.
    - intros; discriminate. }
  apply Sd in E1.
  apply bind_cases in E as [(e & E & ->)|(href & w2 & E2 & E)].
  { apply lift_inv in E as [_ ->]. exists []. cbn. rewrite E1.
    repeat split; auto; try lia.
    - now destruct files_info.
    - intros; discriminate. }
  apply lift_inv in E2 as [_ ->].
  apply bind_cases in E as [(e & E & ->)|(now & w3 & E3 & E)].
  { inversion E. }
  unfold time_time in E3. inversion E3; subst now w3. clear E3.
  apply bind_cases in E as [(e & E & ->)|(items & w4 & E4 & E)].
  - apply upload_loop_sent in E as (names & L & S & _).
    exists names. split; [exact L|]. split.
    + rewrite S. cbn. rewrite E1, <- app_assoc. reflexivity.
    + intros; discriminate.
  - inversion E; subst. apply upload_loop_sent in E4 as (names & L & S & F).
    exists names. split; [exact L|]. split.
    + rewrite S. cbn. rewrite E1, <- app_assoc. reflexivity.
    + intros m _. exact (F items eq_refl).
Qed.

(** X9.  In every run of [upload_files], successful or not, the requests
    sent are a prefix of the full sequence: nothing at all (only when
    building the set of duplicate names fails), or the folder request
    followed by imports for the first records of the input, one each and in
    input order.  No record is skipped and none is sent twice; on success
    every record has its import. *)
Theorem upload_requests_form_a_prefix
    (P : platform) self files_info dirname w r w' :
  upload_files P self files_info dirname w = (r, w') ->
  (sent w' = sent w /\ exists e, r = Err e) \/
  exists names,
    (List.length names <= List.length files_info)%nat /\
    sent w' = (sent w ++ folder_request self dirname
                 :: named_imports self dirname files_info names)%list /\
    (forall m, r = Ok m -> List.length names = List.length files_info).
Proof. apply upload_files_sent. Qed.

Lemma upload_requests_form_a_prefix_witness :
  let w := scripted [stored "disk/backup"; stored "op/1";
                     Ok (mkResponse 507 None); stored "op/3"] [] in
  let self := DiskClient_init "disk-token" in
  exists names,
    (List.length names <= 3)%nat /\
    sent (snd (upload_files utc self example_photos "backup" w)) =
    (folder_request self "backup"
       :: named_imports self "backup" example_photos names)%list.
Proof.
  intros w self.
  destruct (upload_requests_form_a_prefix utc self example_photos "backup" w
              (fst (upload_files utc self example_photos "backup" w))
              (snd (upload_files utc self example_photos "backup" w)))
    as [(Bad & _)|(names & L & S & _)].
  - now destruct (upload_files utc self example_photos "backup" w).
  - vm_compute in Bad. discriminate Bad.
  - exists names. split; [exact L|exact S].
Defined.

(** ** The main module from the photo list on *)

Lemma main_upload_typed (P : platform) photos w tok dirname rest :
  stdin w = tok :: dirname :: rest ->
  exists w3,
    main_upload P photos w =
      upload_files P (DiskClient_init tok) photos dirname w3 /\
    stdin w3 = rest /\
    stdout w3 =
      (stdout w ++ [printed ""; "Enter disk access token: ";
                    "Enter directory name (default: reserve_copy): "])%list /\
    network w3 = network w /\ sent w3 = sent w /\ clock w3 = clock w /\
    ticks w3 = ticks w /\ writable w3 = writable w /\ files w3 = files w.
Proof.
  intros H. unfold main_upload, bind, print, input, lift.
  cbn [stdin set_stdout set_stdin]. rewrite H. cbn [new_DiskClient bind_args].
  eexists. split; [reflexivity|]. cbn. repeat split.
  now rewrite <- !app_assoc.
Qed.

(** X10.  [main_backup] takes the token and the directory name as typed.
    With fewer than two lines to read it ends in [EOFError] with nothing
    sent.  Otherwise whatever it sends starts with the folder request whose
    [path] is the second line verbatim and whose [Authorization] header is
    the first line verbatim: an empty answer is sent as the empty path, the
    [reserve_copy] of the prompt and of the default argument is not
    used. *)
Theorem main_backup_sends_what_was_typed (P : platform) photos w :
  (stdin w = [] \/ (exists line, stdin w = [line]) ->
   exists w',
     main_backup P photos w = (Err EOFError, w') /\
     sent w' = sent w /\ files w' = files w) /\
  (forall tok dirname rest r w',
      stdin w = tok :: dirname :: rest ->
      main_backup P photos w = (r, w') ->
      (sent w' = sent w /\ exists e, r = Err e) \/
      exists names,
        sent w' =
        (sent w ++
         mkRequest PUT "https://cloud-api.yandex.net/v1/disk/resources"
                   [("path", VStr dirname)] [("Authorization", VStr tok)]
           :: named_imports (DiskClient_init tok) dirname photos names)%list).
Proof.
  split.
  - intros [H|(line & H)]; unfold main_backup, main_upload, bind, print, input;
      cbn [stdin set_stdout set_stdin]; rewrite H;
      eexists; (split; [reflexivity|]); split; reflexivity.
  - intros tok dirname rest r w' H E.
    destruct (main_upload_typed P photos w tok dirname rest H)
      as (w3 & U & _ & _ & _ & S3 & _).
    unfold main_backup in E. rewrite <- S3.
    apply bind_cases in E as [(e & E & ->)|(m & w4 & E1 & E2)].
    + rewrite U in E.
      apply upload_files_sent in E as [(S & _)|(names & _ & S & _)].
      * left. eauto.
      * right. exists names. exact S.
    + rewrite U in E1.
      assert (S4 : sent w' = sent w4).
      { unfold bind, dump_to_file, print in E2.
        destruct (writable w4); inversion E2; subst; reflexivity. }
      rewrite S4.
      apply upload_files_sent in E1 as [(_ & e & Bad)|(names & _ & S & _)];
        [discriminate|].
      right. exists names. exact S.
Qed.

Lemma main_backup_sends_what_was_typed_witness :
  let w := scripted [stored "disk/"] ["disk-token"; ""] in
  fst (main_backup utc example_photos (scripted [] ["disk-token"])) =
    Err EOFError /\
  exists names,
    sent (snd (main_backup utc example_photos w)) =
    (mkRequest PUT "https://cloud-api.yandex.net/v1/disk/resources"
               [("path", VStr "")] [("Authorization", VStr "disk-token")]
       :: named_imports (DiskClient_init "disk-token") "" example_photos names)%list.
Proof.
  intros w. split.
  - destruct (proj1 (main_backup_sends_what_was_typed utc example_photos
                       (scripted [] ["disk-token"])))
      as (w' & E & _); [right; eexists; reflexivity|].
    now rewrite E.
  - destruct (proj2 (main_backup_sends_what_was_typed utc example_photos w)
                "disk-token" "" []
                (fst (main_backup utc example_photos w))
                (snd (main_backup utc example_photos w)) eq_refl)
      as [(Bad & _)|(names & S)].
    + now destruct (main_backup utc example_photos w).
    + vm_compute in Bad. discriminate Bad.
    + exists names. exact S.
Defined.

(** X11.  With the two lines typed, photo records, and a storage that
    accepts the folder request and all N imports, [main_backup] sends all
    N+1 requests; then, when [output.json] can be opened, it writes there
    the manifest (name as typed, count N, the assigned names in order),
    prints [Done!] last and ends normally; and when the file cannot be
    opened it ends in [OSError] with no file written, the uploads having
    been made all the same. *)
Theorem backup_completes_on_accepting_storage
    (P : platform) photos w tok dirname rest :
  stdin w = tok :: dirname :: rest ->
  Forall (photo_record P) photos ->
  (forall k, (k <= List.length photos)%nat ->
             exists href, answers_href w (List.length (sent w) + k) href) ->
  exists r w' m,
    main_backup P photos w = (r, w') /\
    List.length (sent w') = (List.length (sent w) + (List.length photos + 1))%nat /\
    m_name m = dirname /\
    m_count m = Z.of_nat (List.length photos) /\
    map i_name (m_items m) = map (spec_name P photos) photos /\
    (writable w = true ->
     r = Ok tt /\ exit_status r = 0 /\
     files w' = (files w ++ [("output.json", m)])%list /\
     last (stdout w') "" = printed "Done!") /\
    (writable w = false -> r = Err OSError /\ files w' = files w).
Proof.
  intros H Hp Ha.
  destruct (main_upload_typed P photos w tok dirname rest H)
    as (w3 & U & _ & _ & N3 & S3 & _ & _ & W3 & F3).
  destruct (upload_files_accepted P (DiskClient_init tok) photos dirname w3 Hp)
    as (href & items & _ & Hn & E).
  { intros k Hk. destruct (Ha k Hk) as (h & resp & kvs & N & A).
    exists h, resp, kvs. now rewrite N3, S3. }
  rewrite <- U in E.
  assert (L : List.length (import_requests (DiskClient_init tok) dirname photos items)
              = List.length photos).
  { apply import_requests_length.
    now rewrite <- (length_map i_name), Hn, length_map. }
  set (m := mkManifest href dirname (clock w3 (ticks w3))
                       (Z.of_nat (List.length photos)) items) in *.
  destruct (writable w) eqn:Hw.
  - eexists _, _, m. split.
    { unfold main_backup, bind at 1. rewrite E.
      unfold bind, dump_to_file, print. cbn [writable set_sent set_ticks].
      rewrite W3. reflexivity. }
    cbn. rewrite F3, S3. repeat split; auto; try discriminate.
    + rewrite length_app. cbn [List.length]. rewrite L. lia.
    + now rewrite last_last.
  - eexists _, _, m. split.
    { unfold main_backup, bind at 1. rewrite E.
      unfold bind, dump_to_file, print. cbn [writable set_sent set_ticks].
      rewrite W3. reflexivity. }
    cbn. rewrite F3, S3. repeat split; auto; try discriminate.
    rewrite length_app. cbn [List.length]. rewrite L. lia.
Qed.

Lemma backup_completes_on_accepting_storage_witness :
  exists m w',
    main_backup utc example_photos example_world = (Ok tt, w') /\
    files w' = [("output.json", m)] /\
    m_name m = "backup" /\ m_count m = 3 /\
    last (stdout w') "" = printed "Done!".
Proof.
  destruct (backup_completes_on_accepting_storage utc example_photos
              example_world "disk-token" "backup" [] eq_refl
              example_photos_are_records example_world_answers)
    as (r & w' & m & E & _ & Hn & Hc & _ & Hw & _).
  destruct (Hw eq_refl) as (-> & _ & F & D).
  exists m, w'. repeat split; auto.
Defined.

(** ** From the album response to the manifest *)

Lemma for_each_lift_inv {A B : Type} (f : A -> result B) l : forall ys w w',
  for_each (fun x => lift (f x)) l w = (Ok ys, w') ->
  Forall2 (fun x y => f x = Ok y) l ys /\ w' = w.
Proof.
  induction l as [|x l IH]; intros ys w w' E; cbn [for_each] in E.
  - inversion E; subst. split; constructor.
  - apply bind_ok in E as (y & w1 & E1 & E). apply lift_inv in E1 as [E1 ->].
    apply bind_ok in E as (ys' & w2 & E2 & E). inversion E; subst.
    apply IH in E2 as (F & ->). split; [constructor; auto|reflexivity].
Qed.

Lemma photo_info_sizes item r :
  photo_info item = Ok r ->
  exists orig_photo,
    getitem item "orig_photo" = Ok orig_photo /\
    getitem orig_photo "url" = Ok (url r) /\
    getitem orig_photo "height" = Ok (height r) /\
    getitem orig_photo "width" = Ok (width r).
Proof.
  unfold photo_info.
  destruct (getitem item "likes") as [lk|]; [|discriminate].
  destruct (getitem lk "count"); [|discriminate].
  destruct (getitem item "orig_photo") as [op|] eqn:Ho; [|discriminate].
  destruct (getitem op "url") eqn:Hu; [|discriminate].
  destruct (getitem item "date"); [|discriminate].
  destruct (getitem op "height") eqn:Hh; [|discriminate].
  destruct (getitem op "width") eqn:Hw; [|discriminate].
  intros [= <-]. exists op. auto.
Qed.

(** X12.  Uploading what [get_photos_info] returned: when the album
    response is accepted with a list of [items] and both calls succeed, the
    manifest counts exactly those items, the two calls together have sent
    the GET, the folder request and one import per item, and the [i]-th
    manifest entry carries the height and width of the [orig_photo] of the
    [i]-th item and was imported from its [url]. *)
Theorem manifest_follows_album_response
    (P : platform) vk album_id disk dirname w resp kvs rkvs items
    infos w1 m w' :
  network w (List.length (sent w)) = Ok resp ->
  accepted resp kvs ->
  dict_get "response" kvs = Some (VDict rkvs) ->
  dict_get "items" rkvs = Some (VList items) ->
  get_photos_info P vk album_id w = (Ok infos, w1) ->
  upload_files P disk infos dirname w1 = (Ok m, w') ->
  m_count m = Z.of_nat (List.length items) /\
  List.length (m_items m) = List.length items /\
  List.length (sent w') = (List.length (sent w) + (List.length items + 2))%nat /\
  forall i item,
    nth_error items i = Some item ->
    exists it orig_photo name source,
      nth_error (m_items m) i = Some it /\
      getitem item "orig_photo" = Ok orig_photo /\
      getitem orig_photo "height" = Ok (i_height it) /\
      getitem orig_photo "width" = Ok (i_width it) /\
      getitem orig_photo "url" = Ok source /\
      nth_error (sent w') (List.length (sent w) + 2 + i) =
        Some (mkRequest POST
                "https://cloud-api.yandex.net/v1/disk/resources/upload"
                [("path", VStr (dirname ++ "/" ++ name)); ("url", source)]
                (disk_headers disk)) /\
      i_name it = name.
Proof.
  intros N A Hr Hi G U.
  rewrite (get_photos_info_accepted P vk album_id w resp kvs N A) in G.
  unfold bind at 1, lift at 1 in G. cbn [getitem] in G. rewrite Hr in G.
  unfold bind at 1, lift at 1 in G. cbn [getitem] in G. rewrite Hi in G.
  unfold bind at 1, lift at 1 in G. cbn [iterate] in G.
  apply for_each_lift_inv in G as (F & ->).
  pose proof (Forall2_length F) as Len.
  apply upload_files_ok in U as (dups & _ & _ & C & _ & L & Hs & _ & I).
  cbn [sent set_sent] in Hs, I. rewrite length_app in I. cbn [List.length] in I.
  split; [congruence|]. split; [congruence|]. split.
  - rewrite Hs, !length_app. cbn [List.length].
    rewrite import_requests_length by exact L. lia.
  - intros i item Hn.
    assert (R : exists r, nth_error infos i = Some r /\ photo_info item = Ok r).
    { clear - F Hn. revert i Hn.
      induction F as [|x y l ys H _ IH]; intros [|i] Hn; cbn in Hn;
        try discriminate.
      - inversion Hn; subst. exists y. split; [reflexivity|assumption].
      - apply IH in Hn as (r & ? & ?). exists r. split; assumption. }
    destruct R as (r & Hr' & Hp).
    destruct (I i r Hr') as (it & Hit & (_ & _ & Hh & Hw)).
    destruct (photo_info_sizes item r Hp) as (op & Ho & Hu & Hh' & Hw').
    exists it, op, (i_name it), (url r).
    split; [exact Hit|]. split; [exact Ho|].
    split; [now rewrite Hh|]. split; [now rewrite Hw|]. split; [exact Hu|].
    split; [|reflexivity].
    rewrite Hs, <- app_assoc, nth_error_app2 by lia.
    replace (List.length (sent w) + 2 + i - List.length (sent w))%nat
      with (S (S i)) by lia.
    cbn [nth_error app]. now apply import_requests_nth.
Qed.

Lemma manifest_follows_album_response_witness :
  let item :=
    VDict [("date", VInt 1619827200);
           ("likes", VDict [("count", VInt 5)]);
           ("orig_photo", VDict [("height", VInt 600); ("url", VStr "https://vk/a.jpg");
                                 ("width", VInt 800)])] in
  let w :=
    scripted [Ok (mkResponse 200
                    (Some (VDict [("response", VDict [("items", VList [item])])])));
              stored "disk/backup"; stored "op/1"] [] in
  exists infos w1 m w',
    get_photos_info utc (VKClient_init "token" "1" "5.199") "wall" w
      = (Ok infos, w1) /\
    upload_files utc (DiskClient_init "disk-token") infos "backup" w1
      = (Ok m, w') /\
    m_count m = 1 /\ List.length (sent w') = 3%nat.
Proof.
  intros item w.
  assert (A : accepted
                (mkResponse 200
                   (Some (VDict [("response", VDict [("items", VList [item])])])))
                [("response", VDict [("items", VList [item])])]).
  { split; [cbn; lia|]. split; [reflexivity|]. now left. }
  eexists _, _, _, _. split; [vm_compute; reflexivity|].
  split; [vm_compute; reflexivity|].
  destruct (manifest_follows_album_response utc
              (VKClient_init "token" "1" "5.199") "wall"
              (DiskClient_init "disk-token") "backup" w _ _ _ [item]
              _ _ _ _ eq_refl A eq_refl eq_refl eq_refl eq_refl)
    as (C & _ & S & _).
  split; [exact C|exact S].
Defined.
